(** * Revenue analysis engine of the forsit e-commerce service (main.py)

    A shallow embedding of the parts of [main.py] that carry logic: the sale
    filters of [get_sales] and [calculate_revenue_for_period], the period loop
    of [revenue_analysis] with the [datetime] arithmetic it performs,
    [update_inventory], and the endpoints that create, read and update the
    rows of the product, sale, inventory and category tables.

    Conventions.
    - A Python [int] is a [Z]; a Python [float] is a binary64 [float].
    - A naive [datetime] is a record of its seven fields; the constructor
      checks of the [datetime] module (year in 1..9999, month in 1..12, day in
      1..days-in-month, time fields in range) and its proleptic Gregorian
      ordinal arithmetic are written out.
    - An exception is a value [Err e] of the [result] type, and code after a
      statement that raises does not run.
    - A table is the list of its rows in store order; a query is the list of
      criteria added by [.filter], conjoined when the query is run; [.first()]
      is the first row in store order.
    - The store is SQLite, as [DATABASE_URL] says. Its integers are signed
      64-bit: binding a Python [int] outside this range raises
      [OverflowError]. It keeps and compares timestamps as text, and it
      stores a NaN as NULL.
    - The clocks are inputs: [update_inventory] takes the reading of
      [datetime.utcnow()] as an argument, an insert of a sale the reading of
      the store's [CURRENT_TIMESTAMP]. The primary key the store gives an
      inserted row is an argument too. *)

From Stdlib Require Import ZArith List Bool String Lia Permutation.
From Stdlib Require Import Floats.
Import ListNotations.

Local Open Scope Z_scope.

(** ** Exceptions and results *)

Inductive exn : Type :=
| ValueError
| OverflowError
| TypeError
| InvalidRequestError
| HTTPException (status_code : Z) (detail : string).

Inductive result (A : Type) : Type :=
| Ok (a : A)
| Err (e : exn).

Arguments Ok {A} a.
Arguments Err {A} e.

Definition bind {A B : Type} (r : result A) (k : A -> result B) : result B :=
  match r with
  | Ok a => k a
  | Err e => Err e
  end.

Notation "x <- r ;; k" := (bind r (fun x => k))
  (at level 61, r at next level, right associativity).

(** ** The calendar of the [datetime] module *)

Module Calendar.

Definition MINYEAR : Z := 1.
Definition MAXYEAR : Z := 9999.
Definition MAXORDINAL : Z := 3652059.

Definition DI400Y : Z := 146097.
Definition DI100Y : Z := 36524.
Definition DI4Y : Z := 1461.

Definition is_leap (year : Z) : bool :=
  (year mod 4 =? 0) && (negb (year mod 100 =? 0) || (year mod 400 =? 0)).

Definition days_before_year (year : Z) : Z :=
  let y := year - 1 in
  y * 365 + y / 4 - y / 100 + y / 400.

Definition DAYS_IN_MONTH (month : Z) : Z :=
  match month with
  | 1 => 31 | 2 => 28 | 3 => 31 | 4 => 30 | 5 => 31 | 6 => 30
  | 7 => 31 | 8 => 31 | 9 => 30 | 10 => 31 | 11 => 30 | 12 => 31
  | _ => -1
  end.

Definition DAYS_BEFORE_MONTH (month : Z) : Z :=
  match month with
  | 1 => 0 | 2 => 31 | 3 => 59 | 4 => 90 | 5 => 120 | 6 => 151
  | 7 => 181 | 8 => 212 | 9 => 243 | 10 => 273 | 11 => 304 | 12 => 334
  | _ => -1
  end.

Definition days_in_month (year month : Z) : Z :=
  if (month =? 2) && is_leap year then 29 else DAYS_IN_MONTH month.

Definition days_before_month (year month : Z) : Z :=
  DAYS_BEFORE_MONTH month + (if (month >? 2) && is_leap year then 1 else 0).

Definition ymd2ord (year month day : Z) : Z :=
  days_before_year year + days_before_month year month + day.

Definition ord2ymd (n : Z) : Z * Z * Z :=
  let n := n - 1 in
  let n400 := n / DI400Y in
  let n := n mod DI400Y in
  let year := n400 * 400 + 1 in
  let n100 := n / DI100Y in
  let n := n mod DI100Y in
  let n4 := n / DI4Y in
  let n := n mod DI4Y in
  let n1 := n / 365 in
  let n := n mod 365 in
  let year := year + n100 * 100 + n4 * 4 + n1 in
  if (n1 =? 4) || (n100 =? 4) then (year - 1, 12, 31)
  else
    let leapyear := (n1 =? 3) && (negb (n4 =? 24) || (n100 =? 3)) in
    let month := Z.shiftr (n + 50) 5 in
    let preceding :=
      DAYS_BEFORE_MONTH month + (if (month >? 2) && leapyear then 1 else 0) in
    if preceding >? n then
      let month := month - 1 in
      let preceding :=
        preceding
        - (DAYS_IN_MONTH month + (if (month =? 2) && leapyear then 1 else 0)) in
      (year, month, n - preceding + 1)
    else (year, month, n - preceding + 1).

(** [_check_date_fields]: the date part a constructor accepts. *)
Definition check_date_fields (year month day : Z) : bool :=
  (MINYEAR <=? year) && (year <=? MAXYEAR)
  && (1 <=? month) && (month <=? 12)
  && (1 <=? day) && (day <=? days_in_month year month).

(** The same check as a proposition. *)
Definition date_in_range (y m d : Z) : Prop :=
  1 <= y <= 9999 /\ 1 <= m <= 12 /\ 1 <= d <= days_in_month y m.

(** [_check_time_fields]. *)
Definition check_time_fields (hour minute second microsecond : Z) : bool :=
  (0 <=? hour) && (hour <=? 23)
  && (0 <=? minute) && (minute <=? 59)
  && (0 <=? second) && (second <=? 59)
  && (0 <=? microsecond) && (microsecond <=? 999999).

End Calendar.

(** ** [datetime] and [timedelta] *)

Record datetime : Type := mk_datetime {
  year : Z;
  month : Z;
  day : Z;
  hour : Z;
  minute : Z;
  second : Z;
  microsecond : Z
}.

Definition time_in_range (h mi s us : Z) : Prop :=
  0 <= h <= 23 /\ 0 <= mi <= 59 /\ 0 <= s <= 59 /\ 0 <= us <= 999999.

(** Same time of day. *)
Definition same_time (a b : datetime) : Prop :=
  hour a = hour b /\ minute a = minute b /\ second a = second b
  /\ microsecond a = microsecond b.

(** The fields of a well-formed [datetime] object. *)
Definition valid_datetime (dt : datetime) : bool :=
  Calendar.check_date_fields (year dt) (month dt) (day dt)
  && Calendar.check_time_fields (hour dt) (minute dt) (second dt) (microsecond dt).

(** [datetime(year, month, day, hour, minute, second, microsecond)]: raises
    [ValueError] on a field out of range. *)
Definition datetime_new (y m d h mi s us : Z) : result datetime :=
  if Calendar.check_date_fields y m d && Calendar.check_time_fields h mi s us
  then Ok (mk_datetime y m d h mi s us)
  else Err ValueError.

Definition or_field (given : option Z) (current : Z) : Z :=
  match given with
  | Some v => v
  | None => current
  end.

(** [self.replace(year=..., month=..., day=...)]: a new object is built from
    the given fields and the remaining fields of [self], through the checking
    constructor. *)
Definition replace (self : datetime) (year' month' day' : option Z)
  : result datetime :=
  datetime_new (or_field year' (year self)) (or_field month' (month self))
               (or_field day' (day self))
               (hour self) (minute self) (second self) (microsecond self).

Definition toordinal (self : datetime) : Z :=
  Calendar.ymd2ord (year self) (month self) (day self).

(** A normalised [timedelta]: 0 <= seconds < 86400, 0 <= microseconds < 10^6.
    The limit of 999999999 days on a [timedelta] is far from the values that
    occur here (an ordinal of at most 3652059 plus or minus a few days) and is
    not written out. *)
Record timedelta : Type := mk_timedelta {
  days : Z;
  seconds : Z;
  microseconds : Z
}.

Definition timedelta_normalize (d s us : Z) : timedelta :=
  let s := s + us / 1000000 in
  let us := us mod 1000000 in
  let d := d + s / 86400 in
  let s := s mod 86400 in
  mk_timedelta d s us.

(** [timedelta(days=n)]. *)
Definition timedelta_days (n : Z) : timedelta := timedelta_normalize n 0 0.

Definition timedelta_neg (t : timedelta) : timedelta :=
  timedelta_normalize (- days t) (- seconds t) (- microseconds t).

Definition timedelta_add (a b : timedelta) : timedelta :=
  timedelta_normalize (days a + days b) (seconds a + seconds b)
                      (microseconds a + microseconds b).

(** [datetime.__add__]: the object becomes a [timedelta] counted from ordinal
    0, the other operand is added, and the sum is converted back; a sum
    outside 1..MAXORDINAL days raises [OverflowError]. *)
Definition datetime_add (self : datetime) (other : timedelta) : result datetime :=
  let delta :=
    timedelta_normalize (toordinal self)
      (hour self * 3600 + minute self * 60 + second self) (microsecond self) in
  let delta := timedelta_add delta other in
  let hour' := seconds delta / 3600 in
  let rem := seconds delta mod 3600 in
  let minute' := rem / 60 in
  let second' := rem mod 60 in
  if (0 <? days delta) && (days delta <=? Calendar.MAXORDINAL) then
    let '(y, m, d) := Calendar.ord2ymd (days delta) in
    Ok (mk_datetime y m d hour' minute' second' (microseconds delta))
  else Err OverflowError.

(** [datetime.__sub__] with a [timedelta] operand: [self + -other]. *)
Definition datetime_sub (self : datetime) (other : timedelta) : result datetime :=
  datetime_add self (timedelta_neg other).

Definition lex (c1 c2 : comparison) : comparison :=
  match c1 with
  | Eq => c2
  | _ => c1
  end.

(** Comparison of two naive [datetime] objects: field by field. *)
Definition datetime_compare (a b : datetime) : comparison :=
  lex (year a ?= year b)
 (lex (month a ?= month b)
 (lex (day a ?= day b)
 (lex (hour a ?= hour b)
 (lex (minute a ?= minute b)
 (lex (second a ?= second b)
      (microsecond a ?= microsecond b)))))).

Definition datetime_leb (a b : datetime) : bool :=
  match datetime_compare a b with
  | Gt => false
  | _ => true
  end.

(** ** Truthiness *)

(** [if v:] on an [Optional[int]]: [None] and [0] are false. *)
Definition if_int {A : Type} (v : option Z) (then_ : Z -> A) (else_ : A) : A :=
  match v with
  | Some n => if n =? 0 then else_ else then_ n
  | None => else_
  end.

(** [if v:] on an [Optional[datetime]]: only [None] is false, a [datetime]
    object defines neither [__bool__] nor [__len__]. *)
Definition if_datetime {A : Type} (v : option datetime) (then_ : datetime -> A)
  (else_ : A) : A :=
  match v with
  | Some d => then_ d
  | None => else_
  end.

(** ** The store *)

(** SQLite's INTEGER is a signed 64-bit integer: binding a Python [int]
    outside this range, as a query parameter or as a value to write, raises
    [OverflowError]. *)
Definition in_int64 (n : Z) : bool :=
  (-9223372036854775808 <=? n) && (n <=? 9223372036854775807).

(** A [float] bound as a value to write: SQLite stores a NaN as NULL. *)
Definition store_float (x : float) : option float :=
  if PrimFloat.is_nan x then None else Some x.

(** Timestamps are kept and compared as text. SQLAlchemy binds a [datetime]
    as "YYYY-MM-DD HH:MM:SS.ffffff"; the store's [CURRENT_TIMESTAMP], the
    default of [Sale.sale_date], is "YYYY-MM-DD HH:MM:SS". Both are of fixed
    width with the most significant field first, so a text is the list of its
    fields, text order is the lexicographic order of the fields, and a text
    that is a proper prefix of another comes first. *)
Definition fields (dt : datetime) : list Z :=
  [year dt; month dt; day dt; hour dt; minute dt; second dt; microsecond dt].

Definition bound_text (d : datetime) : list Z := fields d.

Definition stamp_text (d : datetime) : list Z :=
  [year d; month d; day d; hour d; minute d; second d].

Fixpoint text_compare (a b : list Z) : comparison :=
  match a, b with
  | [], [] => Eq
  | [], _ :: _ => Lt
  | _ :: _, [] => Gt
  | x :: a', y :: b' => lex (x ?= y) (text_compare a' b')
  end.

Definition text_leb (a b : list Z) : bool :=
  match text_compare a b with
  | Gt => false
  | _ => true
  end.


(** ** Tables *)

(** A sale as the session reads it. [revenue] is [None] for a NULL;
    [sale_date] is the stamp the store gave the row, a time to the second. *)
Module Sale.
Record t : Type := mk {
  id : Z;
  product_id : Z;
  quantity : Z;
  revenue : option float;
  sale_date : datetime;
  category_id : Z
}.
End Sale.

Module Inventory.
Record t : Type := mk {
  id : Z;
  product_id : Z;
  stock_quantity : Z;
  last_updated : datetime;
  category_id : Z
}.
End Inventory.

Module RevenueQueryParams.
Record t : Type := mk {
  start_date : datetime;
  end_date : datetime;
  product_id : option Z;
  category_id : option Z
}.
End RevenueQueryParams.

Module RevenueAnalysis.
Record t : Type := mk {
  period : string;
  revenue : float
}.
End RevenueAnalysis.

(** ** Queries over the sales table *)

(** The criteria the code passes to [.filter]:
    [Sale.sale_date >= d], [Sale.sale_date <= d], [Sale.product_id == p] and
    [Sale.category_id == c]. *)
Inductive criterion : Type :=
| sale_date_ge (d : datetime)
| sale_date_le (d : datetime)
| product_id_eq (p : Z)
| category_id_eq (c : Z).

(** What the store answers for one criterion and one row: the timestamp of
    the row against the bound parameter as text, the identifiers as
    integers. *)
Definition holds (c : criterion) (s : Sale.t) : bool :=
  match c with
  | sale_date_ge d => text_leb (bound_text d) (stamp_text (Sale.sale_date s))
  | sale_date_le d => text_leb (stamp_text (Sale.sale_date s)) (bound_text d)
  | product_id_eq p => Sale.product_id s =? p
  | category_id_eq c => Sale.category_id s =? c
  end.

(** The parameter of the criterion can be bound. *)
Definition bindable (c : criterion) : bool :=
  match c with
  | sale_date_ge _ => true
  | sale_date_le _ => true
  | product_id_eq p => in_int64 p
  | category_id_eq c => in_int64 c
  end.

(** [db.query(Sale)] with the criteria added so far. *)
Record Query : Type := mk_query { criteria : list criterion }.

Definition query_Sale : Query := mk_query [].

(** [.filter(c1, ...)]: the criteria are added to the conjunction. *)
Definition filter_by (q : Query) (cs : list criterion) : Query :=
  mk_query (criteria q ++ cs).

Definition matches (q : Query) (s : Sale.t) : bool :=
  forallb (fun c => holds c s) (criteria q).

(** The rows of the table that satisfy every criterion. *)
Definition rows (q : Query) (db : list Sale.t) : list Sale.t :=
  filter (matches q) db.

(** [.all()]: the parameters are bound and the query is run. *)
Definition all (q : Query) (db : list Sale.t) : result (list Sale.t) :=
  if forallb bindable (criteria q) then Ok (rows q db) else Err OverflowError.

(** ** [get_sales] *)

Definition get_sales_query (start_date end_date : option datetime)
  (product_id category_id : option Z) : Query :=
  let sales_query := query_Sale in
  let sales_query :=
    if_datetime start_date
      (fun d => filter_by sales_query [sale_date_ge d]) sales_query in
  let sales_query :=
    if_datetime end_date
      (fun d => filter_by sales_query [sale_date_le d]) sales_query in
  let sales_query :=
    if_int product_id
      (fun p => filter_by sales_query [product_id_eq p]) sales_query in
  let sales_query :=
    if_int category_id
      (fun c => filter_by sales_query [category_id_eq c]) sales_query in
  sales_query.

Definition get_sales (start_date end_date : option datetime)
  (product_id category_id : option Z) (db : list Sale.t)
  : result (list Sale.t) :=
  all (get_sales_query start_date end_date product_id category_id) db.

(** ** [calculate_revenue_for_period] *)

Definition revenue_query (params : RevenueQueryParams.t) : Query :=
  let sales_query :=
    filter_by query_Sale
      [sale_date_ge (RevenueQueryParams.start_date params);
       sale_date_le (RevenueQueryParams.end_date params)] in
  let sales_query :=
    if_int (RevenueQueryParams.product_id params)
      (fun p => filter_by sales_query [product_id_eq p]) sales_query in
  let sales_query :=
    if_int (RevenueQueryParams.category_id params)
      (fun c => filter_by sales_query [category_id_eq c]) sales_query in
  sales_query.

(** [for sale in sales: revenue += sale.revenue]: adding [None] to a [float]
    raises [TypeError]. *)
Fixpoint sum_revenue (sales : list Sale.t) (revenue : float) : result float :=
  match sales with
  | [] => Ok revenue
  | sale :: sales' =>
      match Sale.revenue sale with
      | Some r => sum_revenue sales' (revenue + r)%float
      | None => Err TypeError
      end
  end.

Definition calculate_revenue_for_period (db : list Sale.t)
  (params : RevenueQueryParams.t) : result float :=
  sales <- all (revenue_query params) db ;;
  sum_revenue sales 0%float.

(** ** [revenue_analysis] *)

Inductive period : Type := Daily | Weekly | Monthly | Annual.

Definition label (p : period) : string :=
  match p with
  | Daily => "daily"
  | Weekly => "weekly"
  | Monthly => "monthly"
  | Annual => "annual"
  end.

Definition periods : list period := [Daily; Weekly; Monthly; Annual].

(** The value of the variable [end_date] when a branch of the loop body calls
    [calculate_revenue_for_period]: the daily branch reads the variable as it
    stands, the other three assign it first. *)
Definition period_end (p : period) (start_date end_date : datetime)
  : result datetime :=
  match p with
  | Daily => Ok end_date
  | Weekly => datetime_add start_date (timedelta_days 6)
  | Monthly =>
      first_of_next <- replace start_date None (Some (month start_date + 1)) (Some 1) ;;
      datetime_sub first_of_next (timedelta_days 1)
  | Annual =>
      first_of_next <- replace start_date (Some (year start_date + 1)) (Some 1) (Some 1) ;;
      datetime_sub first_of_next (timedelta_days 1)
  end.

(** The [for period in [...]] loop: [end_date] is the loop-carried variable,
    [revenue_data] the list built by [append]. *)
Fixpoint revenue_loop (todo : list period) (start_date end_date : datetime)
  (product_id category_id : option Z) (db : list Sale.t)
  (revenue_data : list RevenueAnalysis.t) : result (list RevenueAnalysis.t) :=
  match todo with
  | [] => Ok revenue_data
  | p :: todo' =>
      end_date <- period_end p start_date end_date ;;
      revenue <- calculate_revenue_for_period db
                   (RevenueQueryParams.mk start_date end_date product_id
                      category_id) ;;
      revenue_loop todo' start_date end_date product_id category_id db
        (revenue_data ++ [RevenueAnalysis.mk (label p) revenue])
  end.

Definition revenue_analysis (start_date end_date : datetime)
  (product_id category_id : option Z) (db : list Sale.t)
  : result (list RevenueAnalysis.t) :=
  revenue_loop periods start_date end_date product_id category_id db [].

(** Each period computed on its own from the caller's [start_date] and
    [end_date], with no variable carried from one period to the next. *)
Definition independent_entry (p : period) (start_date end_date : datetime)
  (product_id category_id : option Z) (db : list Sale.t)
  : result RevenueAnalysis.t :=
  window_end <- period_end p start_date end_date ;;
  revenue <- calculate_revenue_for_period db
               (RevenueQueryParams.mk start_date window_end product_id
                  category_id) ;;
  Ok (RevenueAnalysis.mk (label p) revenue).

Fixpoint independent_series (todo : list period) (start_date end_date : datetime)
  (product_id category_id : option Z) (db : list Sale.t)
  : result (list RevenueAnalysis.t) :=
  match todo with
  | [] => Ok []
  | p :: todo' =>
      e <- independent_entry p start_date end_date product_id category_id db ;;
      es <- independent_series todo' start_date end_date product_id category_id db ;;
      Ok (e :: es)
  end.

(** The revenue reported under the label of [p], if any. *)
Definition entry (p : period) (series : list RevenueAnalysis.t) : option float :=
  option_map RevenueAnalysis.revenue
    (find (fun e => String.eqb (RevenueAnalysis.period e) (label p)) series).

(** ** The filter contract in the words of the specification *)

Record FilterConfig : Type := mk_config {
  cfg_start_date : option datetime;
  cfg_end_date : option datetime;
  cfg_product_id : option Z;
  cfg_category_id : option Z
}.

(** A row satisfies every constraint of the configuration, a constraint being
    active when its option is present; the bounds are bounds in time. *)
Definition spec_satisfies (C : FilterConfig) (S : Sale.t) : Prop :=
  (forall d, cfg_start_date C = Some d -> datetime_leb d (Sale.sale_date S) = true)
  /\ (forall d, cfg_end_date C = Some d -> datetime_leb (Sale.sale_date S) d = true)
  /\ (forall p, cfg_product_id C = Some p -> Sale.product_id S = p)
  /\ (forall c, cfg_category_id C = Some c -> Sale.category_id S = c).

(** The same as a test. *)
Definition spec_matches (C : FilterConfig) (S : Sale.t) : bool :=
  match cfg_start_date C with
  | Some d => datetime_leb d (Sale.sale_date S)
  | None => true
  end
  && match cfg_end_date C with
     | Some d => datetime_leb (Sale.sale_date S) d
     | None => true
     end
  && match cfg_product_id C with
     | Some p => Sale.product_id S =? p
     | None => true
     end
  && match cfg_category_id C with
     | Some c => Sale.category_id S =? c
     | None => true
     end.

(** An identifier constraint is in force when a nonzero identifier is
    supplied. *)
Definition nonzero_id (v : option Z) : option Z :=
  match v with
  | Some 0 => None
  | Some n => Some n
  | None => None
  end.

Definition effective_config (C : FilterConfig) : FilterConfig :=
  mk_config (cfg_start_date C) (cfg_end_date C)
            (nonzero_id (cfg_product_id C)) (nonzero_id (cfg_category_id C)).

(** The identifiers supplied fit the store's integers. *)
Definition id_fits (v : option Z) : Prop :=
  forall n, v = Some n -> in_int64 n = true.

(** The sale was stamped by the store: its time is a time to the second. *)
Definition stamped (S : Sale.t) : Prop :=
  microsecond (Sale.sale_date S) = 0.

(** The sale was stamped in the very second of [d]. *)
Definition same_second (d : datetime) (S : Sale.t) : Prop :=
  stamp_text (Sale.sale_date S) = stamp_text d.

(** Every sale of the table holds a revenue. *)
Definition revenues_present (db : list Sale.t) : Prop :=
  forall S, In S db -> Sale.revenue S <> None.

(** ** [update_inventory] *)

(** What the parameter [stock_quantity] is bound to: the integer of the request
    body, or, for a request without a body, the declared default, which is the
    dict [example_inventory_update_body]. *)
Inductive body_value : Type :=
| BodyInt (n : Z)
| BodyDict.

(** [not isinstance(stock_quantity, int) or stock_quantity <= 0]. *)
Definition rejected_quantity (stock_quantity : body_value) : bool :=
  match stock_quantity with
  | BodyInt n => n <=? 0
  | BodyDict => true
  end.

Definition int_of_body (stock_quantity : body_value) : Z :=
  match stock_quantity with
  | BodyInt n => n
  | BodyDict => 0
  end.

(** [db.commit()] with one modified object: the row of its primary key is
    rewritten. *)
Definition commit (inventory : Inventory.t) (db : list Inventory.t)
  : list Inventory.t :=
  map (fun r => if Inventory.id r =? Inventory.id inventory then inventory else r) db.

(** [db.refresh(inventory)]: the row is read again by primary key. *)
Definition refresh (inventory : Inventory.t) (db : list Inventory.t)
  : result Inventory.t :=
  match find (fun r => Inventory.id r =? Inventory.id inventory) db with
  | Some r => Ok r
  | None => Err InvalidRequestError
  end.

(** The operation on the inventory table: the result is the returned row and
    the table after the commit. [utcnow] is the reading of the clock. The
    lookup binds [product_id] and the commit binds the new quantity; a commit
    that raises writes nothing. *)
Definition update_inventory (utcnow : datetime) (product_id : Z)
  (stock_quantity : body_value) (db : list Inventory.t)
  : result (Inventory.t * list Inventory.t) :=
  if rejected_quantity stock_quantity then
    Err (HTTPException 400 "stock_quantity should be a positive integer")
  else if negb (in_int64 product_id) then Err OverflowError
  else
    match find (fun r => Inventory.product_id r =? product_id) db with
    | None => Err (HTTPException 404 "Inventory not found")
    | Some inventory =>
        let inventory :=
          Inventory.mk (Inventory.id inventory) (Inventory.product_id inventory)
            (int_of_body stock_quantity) utcnow (Inventory.category_id inventory) in
        if negb (in_int64 (Inventory.stock_quantity inventory)) then
          Err OverflowError
        else
          let db := commit inventory db in
          inventory <- refresh inventory db ;;
          Ok (inventory, db)
    end.

(** ** Notions used to state the properties *)

(** The date [k] days after [s] at the time of day of [s]: what
    [start_date + k days] denotes. *)
Definition plus_days (s : datetime) (k : Z) : datetime :=
  let '(y, m, d) := Calendar.ord2ymd (toordinal s + k) in
  mk_datetime y m d (hour s) (minute s) (second s) (microsecond s).

(** The last calendar day of the month of [s], at the time of day of [s]. *)
Definition last_day_of_month (s : datetime) : datetime :=
  mk_datetime (year s) (month s) (Calendar.days_in_month (year s) (month s))
    (hour s) (minute s) (second s) (microsecond s).

(** December 31 of the year of [s], at the time of day of [s]. *)
Definition december_31 (s : datetime) : datetime :=
  mk_datetime (year s) 12 31 (hour s) (minute s) (second s) (microsecond s).

(** The predicate the sales listing builds from a configuration. *)
Definition listing_predicate (C : FilterConfig) (S : Sale.t) : bool :=
  matches
    (get_sales_query (cfg_start_date C) (cfg_end_date C)
       (cfg_product_id C) (cfg_category_id C)) S.

(** The predicate the revenue computation builds from its parameters. *)
Definition revenue_predicate (params : RevenueQueryParams.t) (S : Sale.t) : bool :=
  matches (revenue_query params) S.

Definition config_of_params (params : RevenueQueryParams.t) : FilterConfig :=
  mk_config (Some (RevenueQueryParams.start_date params))
            (Some (RevenueQueryParams.end_date params))
            (RevenueQueryParams.product_id params)
            (RevenueQueryParams.category_id params).

(** [stock_quantity] is a positive integer. *)
Definition positive_int (stock_quantity : body_value) : Prop :=
  exists n, stock_quantity = BodyInt n /\ 0 < n.

(** The row an accepted update writes in place of [row]. *)
Definition updated_row (row : Inventory.t) (n : Z) (utcnow : datetime)
  : Inventory.t :=
  Inventory.mk (Inventory.id row) (Inventory.product_id row) n utcnow
    (Inventory.category_id row).

(** A sale with its quantity replaced. *)
Definition with_quantity (q : Sale.t -> Z) (s : Sale.t) : Sale.t :=
  Sale.mk (Sale.id s) (Sale.product_id s) (q s) (Sale.revenue s)
          (Sale.sale_date s) (Sale.category_id s).

(** ** Sample data *)

Definition midnight (y m d : Z) : datetime := mk_datetime y m d 0 0 0 0.

(** Two sales of June 2024, revenue 20 and 30. *)
Definition june_sales : list Sale.t :=
  [ Sale.mk 1 1 2 (Some 20%float) (midnight 2024 6 1) 1;
    Sale.mk 2 1 3 (Some 30%float) (midnight 2024 6 10) 1 ].

Definition stock : list Inventory.t :=
  [ Inventory.mk 1 7 10 (midnight 2024 1 1) 1;
    Inventory.mk 2 8 4 (midnight 2024 2 1) 1 ].

(** ** The other tables and their endpoints *)

(** The store chooses the primary key of an inserted row and stamps a sale
    with its own clock: both are arguments, [new_id] and [now]. The foreign
    keys are declared but the SQLite connection the code opens does not
    enforce them, so an insert checks no referenced row. *)

(** A product as the session reads it; [price] is [None] for a NULL. *)
Module Product.
Record t : Type := mk {
  id : Z;
  name : string;
  description : string;
  price : option float;
  category_id : Z
}.
End Product.

Module ProductCreate.
Record t : Type := mk {
  name : string;
  description : string;
  price : float;
  category_id : Z
}.
End ProductCreate.

Module SaleCreate.
Record t : Type := mk {
  product_id : Z;
  quantity : Z;
  revenue : float;
  category_id : Z
}.
End SaleCreate.

Module Category.
Record t : Type := mk {
  id : Z;
  name : string
}.
End Category.

Module CategoryCreate.
Record t : Type := mk {
  name : string
}.
End CategoryCreate.

(** [db.query(T).filter(T.key == k).first()]. *)
Definition first_by {A : Type} (key : A -> Z) (k : Z) (db : list A) : option A :=
  find (fun r => key r =? k) db.

(** [db.refresh(obj)] for a table with primary key [key]. *)
Definition refresh_by {A : Type} (key : A -> Z) (obj : A) (db : list A)
  : result A :=
  match first_by key (key obj) db with
  | Some r => Ok r
  | None => Err InvalidRequestError
  end.

(** [db.commit()] with one modified object of a table with primary key [key]. *)
Definition commit_by {A : Type} (key : A -> Z) (obj : A) (db : list A) : list A :=
  map (fun r => if key r =? key obj then obj else r) db.

(** *** Products *)




(** *** Sales *)


(** *** Inventory *)

Definition get_all_inventory_items (db : list Inventory.t) : list Inventory.t :=
  db.

Definition get_inventory_by_product_id (product_id : Z) (db : list Inventory.t)
  : result Inventory.t :=
  match first_by Inventory.product_id product_id db with
  | Some inventory => Ok inventory
  | None => Err (HTTPException 404 "Inventory not found for this product")
  end.

(** *** Categories *)

(** What a category endpoint does: it returns, raises one of the exceptions
    of [exn], or lets through the [IntegrityError] of a commit that breaks the
    [unique] constraint on [Category.name]. *)
Inductive outcome (A : Type) : Type :=
| Returns (a : A)
| Raises (e : exn)
| RaisesIntegrityError.

Arguments Returns {A} a.
Arguments Raises {A} e.
Arguments RaisesIntegrityError {A}.

Definition returned {A : Type} (r : result A) : outcome A :=
  match r with
  | Ok a => Returns a
  | Err e => Raises e
  end.

Definition name_taken (n : string) (db : list Category.t) : bool :=
  existsb (fun r => String.eqb (Category.name r) n) db.

Definition create_category (new_id : Z) (category : CategoryCreate.t)
  (db : list Category.t) : outcome (Category.t * list Category.t) :=
  let db_category := Category.mk new_id (CategoryCreate.name category) in
  if name_taken (Category.name db_category) db then RaisesIntegrityError
  else
    let db := db ++ [db_category] in
    returned (db_category <- refresh_by Category.id db_category db ;;
              Ok (db_category, db)).

Definition read_category (category_id : Z) (db : list Category.t)
  : result Category.t :=
  match first_by Category.id category_id db with
  | Some category => Ok category
  | None => Err (HTTPException 404 "Category not found")
  end.

(** The lookup binds [category_id]. Then [setattr(db_category, "name", ...)]
    and the commit: an unchanged name writes nothing; a changed one is written
    to the row of the object's primary key unless another row holds it. *)
Definition update_category (category_id : Z) (category : CategoryCreate.t)
  (db : list Category.t) : outcome (Category.t * list Category.t) :=
  if negb (in_int64 category_id) then Raises OverflowError
  else
    match first_by Category.id category_id db with
    | None => Raises (HTTPException 404 "Category not found")
    | Some db_category =>
        let old_name := Category.name db_category in
        let db_category :=
          Category.mk (Category.id db_category) (CategoryCreate.name category) in
        if String.eqb old_name (Category.name db_category) then
          returned (db_category <- refresh_by Category.id db_category db ;;
                    Ok (db_category, db))
        else if name_taken (Category.name db_category)
                  (filter (fun r => negb (Category.id r =? Category.id db_category)) db)
        then RaisesIntegrityError
        else
          let db := commit_by Category.id db_category db in
          returned (db_category <- refresh_by Category.id db_category db ;;
                    Ok (db_category, db))
    end.

Definition get_all_categories (db : list Category.t) : list Category.t := db.

(** *** Notions used to state the properties of the tables *)

(** No row of the table has the primary key [k]. *)
Definition fresh_key {A : Type} (key : A -> Z) (k : Z) (db : list A) : Prop :=
  forall r, In r db -> key r <> k.

(** The primary keys of the table are pairwise distinct. *)
Definition unique_keys {A : Type} (key : A -> Z) (db : list A) : Prop :=
  NoDup (map key db).

(** The names of the categories are pairwise distinct. *)
Definition unique_names (db : list Category.t) : Prop :=
  NoDup (map Category.name db).

(** The lexicographic comparison of two lists of fields of one length. *)
Fixpoint lex_list (a b : list Z) : comparison :=
  match a, b with
  | x :: a', y :: b' => lex (x ?= y) (lex_list a' b')
  | _, _ => Eq
  end.

(** ** Proof automation *)

Import Calendar.

(** Evaluation of the closed subterms of a goal, leaving arithmetic on
    variables as it is written. *)
Ltac is_value v :=
  lazymatch v with
  | Z0 => idtac
  | Zpos ?p => lazymatch p with context [match _ with _ => _ end] => fail | _ => idtac end
  | Zneg ?p => lazymatch p with context [match _ with _ => _ end] => fail | _ => idtac end
  | true => idtac
  | false => idtac
  end.

Ltac eval_closed_step :=
  match goal with
  | |- context [DAYS_BEFORE_MONTH ?k] =>
      let v := eval vm_compute in (DAYS_BEFORE_MONTH k) in
      is_value v; change (DAYS_BEFORE_MONTH k) with v
  | |- context [DAYS_IN_MONTH ?k] =>
      let v := eval vm_compute in (DAYS_IN_MONTH k) in
      is_value v; change (DAYS_IN_MONTH k) with v
  | |- context [?a >? ?b] =>
      let v := eval vm_compute in (a >? b) in
      is_value v; change (a >? b) with v
  | |- context [?a =? ?b] =>
      let v := eval vm_compute in (a =? b) in
      is_value v; change (a =? b) with v
  end.

Ltac eval_closed :=
  cbv beta iota zeta delta [fst snd andb orb negb];
  repeat (eval_closed_step; cbv beta iota zeta delta [fst snd andb orb negb]).

(** Case analysis on a month number bounded by [H : 1 <= m <= 12]. *)
Ltac split_month H :=
  lazymatch type of H with
  | 1 <= ?m <= 12 =>
      let C := fresh "C" in
      assert (C : m = 1 \/ m = 2 \/ m = 3 \/ m = 4 \/ m = 5 \/ m = 6 \/ m = 7
                  \/ m = 8 \/ m = 9 \/ m = 10 \/ m = 11 \/ m = 12) by lia;
      destruct C as [-> | [-> | [-> | [-> | [-> | [-> | [-> | [-> | [-> | [->
                    | [-> | ->]]]]]]]]]]]
  end.

(** * Properties *)

(** ** The calendar *)

Lemma is_leap_cases (y : Z) :
  is_leap y = true /\ y mod 4 = 0 /\ (y mod 100 <> 0 \/ y mod 400 = 0)
  \/ is_leap y = false /\ (y mod 4 <> 0 \/ y mod 100 = 0 /\ y mod 400 <> 0).
Proof.
  unfold is_leap.
  destruct (Z.eqb_spec (y mod 4) 0), (Z.eqb_spec (y mod 100) 0),
    (Z.eqb_spec (y mod 400) 0); simpl; intuition lia.
Qed.

Lemma days_before_year_succ (y : Z) :
  days_before_year (y + 1) = days_before_year y + (if is_leap y then 366 else 365).
Proof.
  unfold days_before_year.
  destruct (is_leap_cases y) as [(-> & H4 & H)|(-> & H)];
    replace (y + 1 - 1) with y by lia; cbv zeta; Z.div_mod_to_equations; lia.
Qed.

Lemma month_day_of_year (leap : bool) (r : Z) :
  0 <= r < 365 ->
  let month := Z.shiftr (r + 50) 5 in
  let preceding :=
    DAYS_BEFORE_MONTH month + (if (month >? 2) && leap then 1 else 0) in
  let md :=
    if preceding >? r then
      (month - 1,
       r - (preceding
            - (DAYS_IN_MONTH (month - 1)
               + (if (month - 1 =? 2) && leap then 1 else 0))) + 1)
    else (month, r - preceding + 1) in
  1 <= fst md <= 12
  /\ 1 <= snd md
       <= (if (fst md =? 2) && leap then 29 else DAYS_IN_MONTH (fst md))
  /\ DAYS_BEFORE_MONTH (fst md) + (if (fst md >? 2) && leap then 1 else 0)
     + snd md = r + 1.
Proof.
  intros Hr. rewrite Z.shiftr_div_pow2 by lia.
  change (2 ^ 5) with 32.
  set (m := (r + 50) / 32).
  assert (Hm : 32 * m <= r + 50 < 32 * m + 32)
    by (subst m; Z.div_mod_to_equations; lia).
  clearbody m.
  assert (Hcases : m = 1 \/ m = 2 \/ m = 3 \/ m = 4 \/ m = 5 \/ m = 6 \/ m = 7
                   \/ m = 8 \/ m = 9 \/ m = 10 \/ m = 11 \/ m = 12) by lia.
  destruct leap;
    repeat (destruct Hcases as [-> | Hcases]); try subst m; eval_closed;
    match goal with
    | |- context [?p >? r] => destruct (Z.gtb_spec p r)
    end; eval_closed; lia.
Qed.

Lemma ord_decompose (n0 : Z) :
  0 <= n0 ->
  let a := n0 / DI400Y in
  let r1 := n0 mod DI400Y in
  let b := r1 / DI100Y in
  let r2 := r1 mod DI100Y in
  let c := r2 / DI4Y in
  let r3 := r2 mod DI4Y in
  let e := r3 / 365 in
  let r := r3 mod 365 in
  n0 = 146097 * a + 36524 * b + 1461 * c + 365 * e + r
  /\ 0 <= a /\ 0 <= b <= 4 /\ 0 <= c <= 24 /\ 0 <= e <= 4 /\ 0 <= r < 365
  /\ (b = 4 -> c = 0 /\ e = 0 /\ r = 0)
  /\ (e = 4 -> r = 0)
  /\ (c = 24 -> e <= 3).
Proof.
  intros H0. cbv zeta. unfold DI400Y, DI100Y, DI4Y.
  Z.div_mod_to_equations. lia.
Qed.

Lemma days_before_year_split (a b c e : Z) :
  0 <= b <= 3 -> 0 <= c <= 24 -> 0 <= e <= 3 ->
  days_before_year (a * 400 + 1 + b * 100 + c * 4 + e)
  = 146097 * a + 36524 * b + 1461 * c + 365 * e.
Proof.
  intros Hb Hc He. unfold days_before_year. cbv zeta.
  Z.div_mod_to_equations. lia.
Qed.

Lemma is_leap_split (a b c e : Z) :
  0 <= b <= 3 -> 0 <= c <= 24 -> 0 <= e <= 3 ->
  is_leap (a * 400 + 1 + b * 100 + c * 4 + e)
  = (e =? 3) && (negb (c =? 24) || (b =? 3)).
Proof.
  intros Hb Hc He.
  destruct (is_leap_cases (a * 400 + 1 + b * 100 + c * 4 + e))
    as [(-> & H4 & H)|(-> & H)];
    destruct (Z.eqb_spec e 3), (Z.eqb_spec c 24), (Z.eqb_spec b 3); cbn;
    try reflexivity; exfalso; Z.div_mod_to_equations; lia.
Qed.

Lemma ord2ymd_spec (n y m d : Z) :
  1 <= n <= MAXORDINAL ->
  ord2ymd n = (y, m, d) ->
  date_in_range y m d /\ ymd2ord y m d = n.
Proof.
  intros Hn. unfold ord2ymd. cbv zeta.
  pose proof (ord_decompose (n - 1)) as Hd. cbv zeta in Hd.
  unfold MAXORDINAL in Hn.
  specialize (Hd ltac:(lia)).
  set (n0 := n - 1) in *.
  set (a := n0 / DI400Y) in *. set (r1 := n0 mod DI400Y) in *.
  set (b := r1 / DI100Y) in *. set (r2 := r1 mod DI100Y) in *.
  set (c := r2 / DI4Y) in *. set (r3 := r2 mod DI4Y) in *.
  set (e := r3 / 365) in *. set (r := r3 mod 365) in *.
  clearbody a r1 b r2 c r3 e r.
  destruct Hd as (Hdec & Ha & Hb & Hc & He & Hr & Hb4 & He4 & Hc24).
  unfold date_in_range, ymd2ord, days_in_month, days_before_month.
  destruct (Z.eqb_spec e 4) as [E4|E4]; [|destruct (Z.eqb_spec b 4) as [B4|B4]];
    cbn [orb].
  - intros [= <- <- <-].
    destruct (Z.eq_dec b 4) as [B4|B4].
    + destruct (Hb4 B4) as (? & ? & ?). lia.
    + replace (a * 400 + 1 + b * 100 + c * 4 + e - 1)
        with (a * 400 + 1 + b * 100 + c * 4 + 3) by lia.
      rewrite is_leap_split, days_before_year_split by lia.
      destruct (Z.eqb_spec 3 3); [|lia].
      destruct (Z.eqb_spec c 24); [lia|].
      eval_closed. lia.
  - intros [= <- <- <-].
    destruct (Hb4 B4) as (-> & -> & ->). subst b.
    replace (a * 400 + 1 + 4 * 100 + 0 * 4 + 0 - 1)
      with (a * 400 + 1 + 3 * 100 + 24 * 4 + 3) by lia.
    rewrite is_leap_split, days_before_year_split by lia.
    eval_closed. lia.
  - pose proof (month_day_of_year ((e =? 3) && (negb (c =? 24) || (b =? 3))) r Hr)
      as Hmd.
    cbv zeta in Hmd.
    match type of Hmd with
    | context [if ?t then _ else _] =>
        match t with
        | _ >? r => destruct t
        end
    end; cbn [fst snd] in Hmd; intros [= <- <- <-];
      rewrite is_leap_split, days_before_year_split by lia; lia.
Qed.

Lemma days_before_year_mono (y y' : Z) :
  y <= y' -> days_before_year y <= days_before_year y'.
Proof.
  intros H. unfold days_before_year. cbv zeta.
  Z.div_mod_to_equations. lia.
Qed.

Lemma ymd2ord_bounds (y m d : Z) :
  1 <= m <= 12 -> 1 <= d <= days_in_month y m ->
  days_before_year y < ymd2ord y m d <= days_before_year (y + 1).
Proof.
  intros Hm Hd. rewrite days_before_year_succ.
  unfold ymd2ord, days_before_month, days_in_month in *.
  split_month Hm; destruct (is_leap y); revert Hd; eval_closed; lia.
Qed.

Lemma ymd2ord_in_range (y m d : Z) :
  date_in_range y m d -> 1 <= ymd2ord y m d <= MAXORDINAL.
Proof.
  intros (Hy & Hm & Hd).
  pose proof (ymd2ord_bounds y m d Hm Hd) as Hb.
  pose proof (days_before_year_mono 1 y ltac:(lia)) as H1.
  pose proof (days_before_year_mono (y + 1) 10000 ltac:(lia)) as H2.
  change (days_before_year 1) with 0 in H1.
  change (days_before_year 10000) with 3652059 in H2.
  unfold MAXORDINAL. lia.
Qed.

Lemma ymd2ord_inj (y m d y' m' d' : Z) :
  1 <= m <= 12 -> 1 <= d <= days_in_month y m ->
  1 <= m' <= 12 -> 1 <= d' <= days_in_month y' m' ->
  ymd2ord y m d = ymd2ord y' m' d' ->
  y = y' /\ m = m' /\ d = d'.
Proof.
  intros Hm Hd Hm' Hd' E.
  pose proof (ymd2ord_bounds y m d Hm Hd) as B.
  pose proof (ymd2ord_bounds y' m' d' Hm' Hd') as B'.
  assert (y = y') as <-.
  { destruct (Z.lt_trichotomy y y') as [L | [L | L]]; [|exact L|].
    - pose proof (days_before_year_mono (y + 1) y' ltac:(lia)). lia.
    - pose proof (days_before_year_mono (y' + 1) y ltac:(lia)). lia. }
  split; [reflexivity|].
  unfold ymd2ord, days_before_month, days_in_month in *.
  split_month Hm; split_month Hm'; destruct (is_leap y);
    revert Hd Hd' E; eval_closed; lia.
Qed.

Lemma ord2ymd_ymd2ord (y m d : Z) :
  date_in_range y m d -> ord2ymd (ymd2ord y m d) = (y, m, d).
Proof.
  intros Hr.
  destruct (ord2ymd (ymd2ord y m d)) as [[y' m'] d'] eqn:E.
  destruct (ord2ymd_spec _ _ _ _ (ymd2ord_in_range _ _ _ Hr) E)
    as ((Hy' & Hm' & Hd') & E').
  destruct Hr as (Hy & Hm & Hd).
  destruct (ymd2ord_inj _ _ _ _ _ _ Hm' Hd' Hm Hd E') as (-> & -> & ->).
  reflexivity.
Qed.

(** ** [datetime] arithmetic *)

Lemma check_date_fields_iff (y m d : Z) :
  check_date_fields y m d = true <-> date_in_range y m d.
Proof.
  unfold check_date_fields, date_in_range, MINYEAR, MAXYEAR.
  rewrite !andb_true_iff, !Z.leb_le. tauto.
Qed.

Lemma check_time_fields_iff (h mi s us : Z) :
  check_time_fields h mi s us = true <-> time_in_range h mi s us.
Proof.
  unfold check_time_fields, time_in_range.
  rewrite !andb_true_iff, !Z.leb_le. tauto.
Qed.

Lemma valid_datetime_iff (dt : datetime) :
  valid_datetime dt = true
  <-> date_in_range (year dt) (month dt) (day dt)
      /\ time_in_range (hour dt) (minute dt) (second dt) (microsecond dt).
Proof.
  unfold valid_datetime.
  rewrite andb_true_iff, check_date_fields_iff, check_time_fields_iff. tauto.
Qed.

Lemma datetime_new_ok (y m d h mi s us : Z) :
  date_in_range y m d -> time_in_range h mi s us ->
  datetime_new y m d h mi s us = Ok (mk_datetime y m d h mi s us).
Proof.
  intros Hd Ht. unfold datetime_new.
  apply check_date_fields_iff in Hd. apply check_time_fields_iff in Ht.
  rewrite Hd, Ht. reflexivity.
Qed.

Lemma datetime_new_bad_date (y m d h mi s us : Z) :
  ~ date_in_range y m d ->
  datetime_new y m d h mi s us = Err ValueError.
Proof.
  intros Hd. unfold datetime_new.
  destruct (check_date_fields y m d) eqn:E; [|reflexivity].
  apply check_date_fields_iff in E. contradiction.
Qed.

(** Adding whole days moves the ordinal and keeps the time of day. *)
Lemma datetime_add_whole_days (dt : datetime) (k : Z) :
  time_in_range (hour dt) (minute dt) (second dt) (microsecond dt) ->
  datetime_add dt (mk_timedelta k 0 0)
  = if (0 <? toordinal dt + k) && (toordinal dt + k <=? MAXORDINAL) then
      let '(y, m, d) := ord2ymd (toordinal dt + k) in
      Ok (mk_datetime y m d (hour dt) (minute dt) (second dt) (microsecond dt))
    else Err OverflowError.
Proof.
  intros (Hh & Hmi & Hs & Hus).
  unfold datetime_add, timedelta_add, timedelta_normalize. cbn [days seconds microseconds].
  set (o := toordinal dt).
  assert (E1 : microsecond dt / 1000000 = 0) by (Z.div_mod_to_equations; lia).
  assert (E2 : microsecond dt mod 1000000 = microsecond dt)
    by (Z.div_mod_to_equations; lia).
  rewrite E1, E2. rewrite !Z.add_0_r. rewrite E1, E2. rewrite !Z.add_0_r.
  set (sec := hour dt * 3600 + minute dt * 60 + second dt).
  assert (E3 : sec / 86400 = 0) by (subst sec; Z.div_mod_to_equations; lia).
  assert (E4 : sec mod 86400 = sec) by (subst sec; Z.div_mod_to_equations; lia).
  rewrite E3, E4. rewrite !Z.add_0_r. rewrite E3, E4. rewrite !Z.add_0_r.
  assert (E5 : sec / 3600 = hour dt) by (subst sec; Z.div_mod_to_equations; lia).
  assert (E6 : sec mod 3600 / 60 = minute dt)
    by (subst sec; Z.div_mod_to_equations; lia).
  assert (E7 : (sec mod 3600) mod 60 = second dt)
    by (subst sec; Z.div_mod_to_equations; lia).
  rewrite E5, E6, E7. reflexivity.
Qed.

Lemma days_before_month_succ (y m : Z) :
  1 <= m <= 11 ->
  days_before_month y (m + 1) = days_before_month y m + days_in_month y m.
Proof.
  intros Hm. unfold days_before_month, days_in_month.
  assert (Hm' : 1 <= m <= 12) by lia.
  split_month Hm'; try lia; destruct (is_leap y); eval_closed; lia.
Qed.

Lemma days_in_month_bounds (y m : Z) :
  1 <= m <= 12 -> 28 <= days_in_month y m <= 31.
Proof.
  intros Hm. unfold days_in_month.
  split_month Hm; destruct (is_leap y); eval_closed; lia.
Qed.

(** The day before the first of a month is the last day of the month before. *)
Lemma ymd2ord_first_of_next_month (y m : Z) :
  1 <= m <= 11 ->
  ymd2ord y (m + 1) 1 + -1 = ymd2ord y m (days_in_month y m).
Proof.
  intros Hm. unfold ymd2ord. rewrite days_before_month_succ by lia. lia.
Qed.

(** The day before January 1 is December 31 of the year before. *)
Lemma ymd2ord_first_of_next_year (y : Z) :
  ymd2ord (y + 1) 1 1 + -1 = ymd2ord y 12 31.
Proof.
  unfold ymd2ord, days_before_month. rewrite days_before_year_succ.
  destruct (is_leap (y + 1)), (is_leap y); eval_closed; lia.
Qed.

Lemma monthly_end (s e : datetime) :
  valid_datetime s = true ->
  period_end Monthly s e
  = if month s =? 12 then Err ValueError
    else Ok (mk_datetime (year s) (month s) (days_in_month (year s) (month s))
               (hour s) (minute s) (second s) (microsecond s)).
Proof.
  intros Hv. apply valid_datetime_iff in Hv. destruct Hv as ((Hy & Hm & Hd) & Ht).
  unfold period_end, replace. cbn [or_field].
  destruct (Z.eqb_spec (month s) 12) as [E | E].
  - rewrite datetime_new_bad_date; [reflexivity|].
    unfold date_in_range. lia.
  - pose proof (days_in_month_bounds (year s) (month s + 1) ltac:(lia)) as B1.
    pose proof (days_in_month_bounds (year s) (month s) ltac:(lia)) as B0.
    rewrite datetime_new_ok by (unfold date_in_range; auto; lia).
    cbn [bind]. unfold datetime_sub.
    change (timedelta_neg (timedelta_days 1)) with (mk_timedelta (-1) 0 0).
    rewrite datetime_add_whole_days by exact Ht.
    unfold toordinal. cbn [year month day hour minute second microsecond].
    rewrite ymd2ord_first_of_next_month by lia.
    assert (R : date_in_range (year s) (month s) (days_in_month (year s) (month s)))
      by (unfold date_in_range; lia).
    pose proof (ymd2ord_in_range _ _ _ R) as O.
    rewrite ord2ymd_ymd2ord by exact R.
    destruct (Z.ltb_spec 0 (ymd2ord (year s) (month s) (days_in_month (year s) (month s))));
      [|lia].
    destruct (Z.leb_spec (ymd2ord (year s) (month s) (days_in_month (year s) (month s)))
                MAXORDINAL); [|lia].
    reflexivity.
Qed.

Lemma annual_end (s e : datetime) :
  valid_datetime s = true ->
  period_end Annual s e
  = if year s =? 9999 then Err ValueError
    else Ok (mk_datetime (year s) 12 31
               (hour s) (minute s) (second s) (microsecond s)).
Proof.
  intros Hv. apply valid_datetime_iff in Hv. destruct Hv as ((Hy & Hm & Hd) & Ht).
  unfold period_end, replace. cbn [or_field].
  destruct (Z.eqb_spec (year s) 9999) as [E | E].
  - rewrite datetime_new_bad_date; [reflexivity|].
    unfold date_in_range. lia.
  - rewrite datetime_new_ok
      by (try exact Ht; unfold date_in_range, days_in_month; eval_closed; lia).
    cbn [bind]. unfold datetime_sub.
    change (timedelta_neg (timedelta_days 1)) with (mk_timedelta (-1) 0 0).
    rewrite datetime_add_whole_days by exact Ht.
    unfold toordinal. cbn [year month day hour minute second microsecond].
    rewrite ymd2ord_first_of_next_year.
    assert (R : date_in_range (year s) 12 31)
      by (unfold date_in_range, days_in_month; eval_closed; lia).
    pose proof (ymd2ord_in_range _ _ _ R) as O.
    rewrite ord2ymd_ymd2ord by exact R.
    destruct (Z.ltb_spec 0 (ymd2ord (year s) 12 31)); [|lia].
    destruct (Z.leb_spec (ymd2ord (year s) 12 31) MAXORDINAL); [|lia].
    reflexivity.
Qed.

Lemma weekly_end (s e : datetime) :
  valid_datetime s = true ->
  period_end Weekly s e
  = if toordinal s + 6 <=? MAXORDINAL then
      let '(y, m, d) := ord2ymd (toordinal s + 6) in
      Ok (mk_datetime y m d (hour s) (minute s) (second s) (microsecond s))
    else Err OverflowError.
Proof.
  intros Hv. apply valid_datetime_iff in Hv. destruct Hv as (Hd & Ht).
  unfold period_end.
  change (timedelta_days 6) with (mk_timedelta 6 0 0).
  rewrite datetime_add_whole_days by exact Ht.
  pose proof (ymd2ord_in_range _ _ _ Hd) as O. fold (toordinal s) in O.
  destruct (Z.ltb_spec 0 (toordinal s + 6)); [|lia].
  reflexivity.
Qed.

Lemma plus_days_spec (s : datetime) (k : Z) :
  valid_datetime s = true ->
  1 <= toordinal s + k <= MAXORDINAL ->
  valid_datetime (plus_days s k) = true
  /\ toordinal (plus_days s k) = toordinal s + k
  /\ same_time (plus_days s k) s.
Proof.
  intros Hv Hk. apply valid_datetime_iff in Hv. destruct Hv as (Hd & Ht).
  unfold plus_days.
  destruct (ord2ymd (toordinal s + k)) as [[y m] d] eqn:E.
  destruct (ord2ymd_spec _ _ _ _ Hk E) as (R & O).
  split; [|split].
  - apply valid_datetime_iff. cbn. split; assumption.
  - exact O.
  - repeat split.
Qed.

(** ** The reporting windows *)

(** C1. The monthly branch of the revenue endpoint. For a start date of
    January to November the window end is the last calendar day of the start
    date's month, at the start date's time of day, obtained as the first day of
    the following month minus one day. For a start date in December the
    derivation does not wrap to January of the next year: [replace] is called
    with month 13 and raises [ValueError]. *)
Theorem monthly_window_end (start_date end_date : datetime) :
  valid_datetime start_date = true ->
  (month start_date <> 12 ->
   period_end Monthly start_date end_date = Ok (last_day_of_month start_date))
  /\ (month start_date = 12 ->
      period_end Monthly start_date end_date = Err ValueError).
Proof.
  intros Hv. rewrite (monthly_end _ _ Hv).
  split; intros H.
  - destruct (Z.eqb_spec (month start_date) 12); [contradiction|reflexivity].
  - rewrite H. reflexivity.
Qed.

Lemma monthly_window_end_witness :
  valid_datetime (midnight 2024 12 15) = true
  /\ period_end Monthly (midnight 2024 12 15) (midnight 2024 12 31) = Err ValueError
  /\ period_end Monthly (midnight 2024 2 1) (midnight 2024 12 31)
     = Ok (midnight 2024 2 29).
Proof.
  split; [reflexivity|]. split.
  - exact (proj2 (monthly_window_end (midnight 2024 12 15) (midnight 2024 12 31)
                    eq_refl) eq_refl).
  - apply (proj1 (monthly_window_end (midnight 2024 2 1) (midnight 2024 12 31)
                    eq_refl)).
    discriminate.
Defined.

(** C4, as amended. For every start date up to 9999-12-25 and every end date,
    the weekly branch sets the window end to the start date plus six days: a
    well-formed [datetime] whose ordinal is the start date's plus 6 and whose
    time of day is the start date's, whatever the end date supplied; the query
    of the weekly entry runs from the start date to that end. *)
Theorem weekly_window (start_date end_date : datetime)
  (product_id category_id : option Z) (db : list Sale.t)
  (todo : list period) (revenue_data : list RevenueAnalysis.t) :
  valid_datetime start_date = true ->
  toordinal start_date + 6 <= MAXORDINAL ->
  period_end Weekly start_date end_date = Ok (plus_days start_date 6)
  /\ valid_datetime (plus_days start_date 6) = true
  /\ toordinal (plus_days start_date 6) = toordinal start_date + 6
  /\ same_time (plus_days start_date 6) start_date
  /\ revenue_loop (Weekly :: todo) start_date end_date product_id category_id db
       revenue_data
     = (revenue <- calculate_revenue_for_period db
                     (RevenueQueryParams.mk start_date (plus_days start_date 6)
                        product_id category_id) ;;
        revenue_loop todo start_date (plus_days start_date 6) product_id
          category_id db
          (revenue_data ++ [RevenueAnalysis.mk "weekly" revenue])).
Proof.
  intros Hv Hmax.
  assert (Hw : period_end Weekly start_date end_date = Ok (plus_days start_date 6)).
  { rewrite (weekly_end _ _ Hv). unfold plus_days.
    destruct (Z.leb_spec (toordinal start_date + 6) MAXORDINAL); [|lia].
    destruct (ord2ymd (toordinal start_date + 6)) as [[y m] d]. reflexivity. }
  assert (Hlow : 1 <= toordinal start_date).
  { apply valid_datetime_iff in Hv. destruct Hv as (Hd & _).
    apply (ymd2ord_in_range _ _ _ Hd). }
  destruct (plus_days_spec start_date 6 Hv ltac:(lia)) as (V & O & T).
  repeat (split; [assumption|]).
  cbn [revenue_loop]. rewrite Hw. reflexivity.
Qed.

Lemma weekly_window_witness :
  valid_datetime (midnight 2024 6 1) = true
  /\ toordinal (midnight 2024 6 1) + 6 <= MAXORDINAL
  /\ period_end Weekly (midnight 2024 6 1) (midnight 2024 6 10)
     = Ok (plus_days (midnight 2024 6 1) 6)
  /\ plus_days (midnight 2024 6 1) 6 = midnight 2024 6 7.
Proof.
  split; [reflexivity|]. split; [vm_compute; discriminate|]. split.
  - apply (weekly_window (midnight 2024 6 1) (midnight 2024 6 10) None None [] [] []).
    + reflexivity.
    + vm_compute. discriminate.
  - reflexivity.
Defined.

(** C4, as stated, fails at the end of the calendar: 9999-12-28 plus six days
    is no [datetime], the addition raises [OverflowError]. *)
Lemma weekly_window_overflow :
  valid_datetime (midnight 9999 12 28) = true
  /\ period_end Weekly (midnight 9999 12 28) (midnight 9999 12 31)
     = Err OverflowError.
Proof. split; reflexivity. Qed.

(** C5, as amended. For every start date in a year before 9999 and every end
    date, the annual branch sets the window end to December 31 of the start
    date's year, at the start date's time of day, whatever the end date
    supplied; the query of the annual entry runs from the start date to that
    end. *)
Theorem annual_window (start_date end_date : datetime)
  (product_id category_id : option Z) (db : list Sale.t)
  (todo : list period) (revenue_data : list RevenueAnalysis.t) :
  valid_datetime start_date = true ->
  year start_date < 9999 ->
  period_end Annual start_date end_date = Ok (december_31 start_date)
  /\ revenue_loop (Annual :: todo) start_date end_date product_id category_id db
       revenue_data
     = (revenue <- calculate_revenue_for_period db
                     (RevenueQueryParams.mk start_date (december_31 start_date)
                        product_id category_id) ;;
        revenue_loop todo start_date (december_31 start_date) product_id
          category_id db
          (revenue_data ++ [RevenueAnalysis.mk "annual" revenue])).
Proof.
  intros Hv Hy.
  assert (Ha : period_end Annual start_date end_date = Ok (december_31 start_date)).
  { rewrite (annual_end _ _ Hv).
    destruct (Z.eqb_spec (year start_date) 9999); [lia|reflexivity]. }
  split; [exact Ha|].
  cbn [revenue_loop]. rewrite Ha. reflexivity.
Qed.

Lemma annual_window_witness :
  valid_datetime (midnight 2023 3 10) = true
  /\ year (midnight 2023 3 10) < 9999
  /\ period_end Annual (midnight 2023 3 10) (midnight 2023 4 1)
     = Ok (midnight 2023 12 31).
Proof.
  split; [reflexivity|]. split; [reflexivity|].
  apply (annual_window (midnight 2023 3 10) (midnight 2023 4 1) None None [] [] []);
    reflexivity.
Defined.

(** C5, as stated, fails in the last year of the calendar: [replace] is called
    with year 10000 and raises [ValueError]. *)
Lemma annual_window_last_year :
  valid_datetime (midnight 9999 3 10) = true
  /\ period_end Annual (midnight 9999 3 10) (midnight 9999 12 31) = Err ValueError.
Proof. split; reflexivity. Qed.

(** ** The order of timestamps *)

Lemma lex_Eq_r (c : comparison) : lex c Eq = c.
Proof. destruct c; reflexivity. Qed.

Lemma datetime_compare_fields (a b : datetime) :
  datetime_compare a b = lex_list (fields a) (fields b).
Proof.
  unfold datetime_compare, fields. cbn [lex_list].
  rewrite lex_Eq_r. reflexivity.
Qed.

Lemma lex_list_refl (l : list Z) : lex_list l l = Eq.
Proof.
  induction l as [|x l IH]; [reflexivity|].
  cbn [lex_list]. rewrite Z.compare_refl. exact IH.
Qed.

Lemma lex_list_trans (a : list Z) :
  forall b c,
    List.length a = List.length b -> List.length b = List.length c ->
    lex_list a b <> Gt -> lex_list b c <> Gt -> lex_list a c <> Gt.
Proof.
  induction a as [|x a IH]; intros [|y b] [|z c] Hab Hbc; cbn [lex_list];
    try discriminate; try (intros; discriminate).
  injection Hab as Hab. injection Hbc as Hbc.
  destruct (Z.compare_spec x y), (Z.compare_spec y z), (Z.compare_spec x z);
    cbn [lex]; try lia; try congruence; try (intros; discriminate).
  apply IH; assumption.
Qed.

Lemma datetime_leb_iff (a b : datetime) :
  datetime_leb a b = true <-> lex_list (fields a) (fields b) <> Gt.
Proof.
  unfold datetime_leb. rewrite datetime_compare_fields.
  destruct (lex_list (fields a) (fields b)); split; congruence.
Qed.

Lemma datetime_leb_refl (a : datetime) : datetime_leb a a = true.
Proof.
  apply datetime_leb_iff. rewrite lex_list_refl. discriminate.
Qed.

Lemma datetime_leb_trans (a b c : datetime) :
  datetime_leb a b = true -> datetime_leb b c = true -> datetime_leb a c = true.
Proof.
  rewrite !datetime_leb_iff. apply lex_list_trans; reflexivity.
Qed.


(** ** The order of texts *)

Lemma lex_list_eq (a : list Z) :
  forall b, List.length a = List.length b -> lex_list a b = Eq -> a = b.
Proof.
  induction a as [|x a IH]; intros [|y b] Hl; cbn [lex_list];
    try discriminate; [reflexivity|].
  injection Hl as Hl.
  destruct (Z.compare_spec x y) as [Exy|Lxy|Lxy]; cbn [lex]; try discriminate.
  intros Hrest. subst y. f_equal. apply IH; assumption.
Qed.

Lemma lex_list_snoc (a : list Z) (x y : Z) :
  forall b, List.length a = List.length b ->
    lex_list (a ++ [x]) (b ++ [y]) = lex (lex_list a b) (x ?= y).
Proof.
  induction a as [|u a IH]; intros [|v b] Hl; try discriminate.
  - cbn. apply lex_Eq_r.
  - injection Hl as Hl. cbn [app lex_list]. rewrite IH by exact Hl.
    destruct (u ?= v); reflexivity.
Qed.

Lemma text_compare_same_length (a : list Z) :
  forall b, List.length a = List.length b -> text_compare a b = lex_list a b.
Proof.
  induction a as [|x a IH]; intros [|y b] Hl; try discriminate;
    [reflexivity|].
  injection Hl as Hl. cbn [text_compare lex_list]. rewrite IH by exact Hl.
  reflexivity.
Qed.

(** A text against a text one field longer. *)
Lemma text_compare_shorter (a : list Z) (y : Z) :
  forall b, List.length a = List.length b ->
    text_compare a (b ++ [y])
    = match lex_list a b with Eq => Lt | c => c end.
Proof.
  induction a as [|u a IH]; intros [|v b] Hl; try discriminate;
    [reflexivity|].
  injection Hl as Hl. cbn [app text_compare lex_list]. rewrite IH by exact Hl.
  destruct (u ?= v); reflexivity.
Qed.

Lemma text_compare_longer (a : list Z) (x : Z) :
  forall b, List.length a = List.length b ->
    text_compare (a ++ [x]) b
    = match lex_list a b with Eq => Gt | c => c end.
Proof.
  induction a as [|u a IH]; intros [|v b] Hl; try discriminate;
    [reflexivity|].
  injection Hl as Hl. cbn [app text_compare lex_list]. rewrite IH by exact Hl.
  destruct (u ?= v); reflexivity.
Qed.

Lemma text_leb_trans (a : list Z) :
  forall b c, text_leb a b = true -> text_leb b c = true -> text_leb a c = true.
Proof.
  unfold text_leb.
  induction a as [|x a IH]; intros [|y b] [|z c]; cbn [text_compare];
    try reflexivity; try discriminate.
  specialize (IH b c).
  destruct (Z.compare_spec x y), (Z.compare_spec y z), (Z.compare_spec x z);
    cbn [lex]; try lia; try reflexivity; try discriminate.
  exact IH.
Qed.

Lemma bound_text_snoc (d : datetime) :
  bound_text d = stamp_text d ++ [microsecond d].
Proof. reflexivity. Qed.

(** The upper bound as the store tests it: to the second. *)
Lemma stamp_le_bound (t b : datetime) :
  text_leb (stamp_text t) (bound_text b)
  = match lex_list (stamp_text t) (stamp_text b) with
    | Gt => false
    | _ => true
    end.
Proof.
  unfold text_leb. rewrite bound_text_snoc, text_compare_shorter by reflexivity.
  destruct (lex_list (stamp_text t) (stamp_text b)); reflexivity.
Qed.

(** The lower bound as the store tests it: strictly later to the second. *)
Lemma bound_le_stamp (b t : datetime) :
  text_leb (bound_text b) (stamp_text t)
  = match lex_list (stamp_text b) (stamp_text t) with
    | Lt => true
    | _ => false
    end.
Proof.
  unfold text_leb. rewrite bound_text_snoc, text_compare_longer by reflexivity.
  destruct (lex_list (stamp_text b) (stamp_text t)); reflexivity.
Qed.

Lemma datetime_leb_by_second (a b : datetime) :
  datetime_leb a b
  = match lex (lex_list (stamp_text a) (stamp_text b))
              (microsecond a ?= microsecond b) with
    | Gt => false
    | _ => true
    end.
Proof.
  unfold datetime_leb. rewrite datetime_compare_fields.
  change (fields a) with (stamp_text a ++ [microsecond a]).
  change (fields b) with (stamp_text b ++ [microsecond b]).
  rewrite lex_list_snoc by reflexivity. reflexivity.
Qed.

(** For a stamp to the second, the store's upper bound is the bound in time. *)
Lemma stamp_le_bound_in_time (t b : datetime) :
  microsecond t = 0 -> 0 <= microsecond b ->
  text_leb (stamp_text t) (bound_text b) = datetime_leb t b.
Proof.
  intros Ht Hb. rewrite stamp_le_bound, datetime_leb_by_second, Ht.
  destruct (lex_list (stamp_text t) (stamp_text b)); cbn [lex]; try reflexivity.
  destruct (Z.compare_spec 0 (microsecond b)); try reflexivity. lia.
Qed.

(** Away from the second of the bound, the store's lower bound is the bound
    in time. *)
Lemma bound_le_stamp_in_time (b t : datetime) :
  stamp_text t <> stamp_text b ->
  text_leb (bound_text b) (stamp_text t) = datetime_leb b t.
Proof.
  intros Hne. rewrite bound_le_stamp, datetime_leb_by_second.
  destruct (lex_list (stamp_text b) (stamp_text t)) eqn:E; cbn [lex];
    try reflexivity.
  exfalso. apply Hne. symmetry. apply lex_list_eq; [reflexivity|exact E].
Qed.

(** In the second of the bound, the store's lower bound fails. *)
Lemma bound_le_stamp_same_second (b t : datetime) :
  stamp_text t = stamp_text b ->
  text_leb (bound_text b) (stamp_text t) = false.
Proof.
  intros E. rewrite bound_le_stamp, E, lex_list_refl. reflexivity.
Qed.

(** Two bound parameters compare as the [datetime] values do. *)
Lemma bound_le_bound (a b : datetime) :
  text_leb (bound_text a) (bound_text b) = datetime_leb a b.
Proof.
  unfold text_leb, datetime_leb, bound_text.
  rewrite text_compare_same_length by reflexivity.
  rewrite datetime_compare_fields. reflexivity.
Qed.

(** ** The sale filters *)

Lemma forall_some {A : Type} (o : option A) (P : A -> Prop) :
  (forall x, o = Some x -> P x) <-> match o with Some x => P x | None => True end.
Proof.
  destruct o as [a|]; split; intros H.
  - apply H. reflexivity.
  - intros x [= <-]. exact H.
  - exact I.
  - intros x [=].
Qed.

Lemma spec_satisfies_unfold (C : FilterConfig) (S : Sale.t) :
  spec_satisfies C S
  <-> match cfg_start_date C with
      | Some d => datetime_leb d (Sale.sale_date S) = true
      | None => True
      end
      /\ match cfg_end_date C with
         | Some d => datetime_leb (Sale.sale_date S) d = true
         | None => True
         end
      /\ match cfg_product_id C with
         | Some p => Sale.product_id S = p
         | None => True
         end
      /\ match cfg_category_id C with
         | Some c => Sale.category_id S = c
         | None => True
         end.
Proof.
  unfold spec_satisfies. rewrite !forall_some. reflexivity.
Qed.

Lemma spec_matches_iff (C : FilterConfig) (S : Sale.t) :
  spec_matches C S = true <-> spec_satisfies C S.
Proof.
  rewrite spec_satisfies_unfold. unfold spec_matches.
  rewrite !andb_true_iff.
  destruct (cfg_start_date C), (cfg_end_date C), (cfg_product_id C),
    (cfg_category_id C); rewrite ?Z.eqb_eq; tauto.
Qed.

Lemma matches_filter_by (q : Query) (cs : list criterion) (S : Sale.t) :
  matches (filter_by q cs) S = matches q S && forallb (fun c => holds c S) cs.
Proof.
  unfold matches, filter_by. cbn [criteria]. apply forallb_app.
Qed.

Lemma bindable_filter_by (q : Query) (cs : list criterion) :
  forallb bindable (criteria (filter_by q cs))
  = forallb bindable (criteria q) && forallb bindable cs.
Proof.
  unfold filter_by. cbn [criteria]. apply forallb_app.
Qed.

Lemma nonzero_id_cases (v : option Z) :
  (nonzero_id v = None /\ (v = None \/ v = Some 0))
  \/ (exists n, nonzero_id v = Some n /\ v = Some n /\ n <> 0).
Proof.
  destruct v as [[|p|p]|]; cbn.
  - left. auto.
  - right. exists (Z.pos p). repeat split. discriminate.
  - right. exists (Z.neg p). repeat split. discriminate.
  - left. auto.
Qed.

Lemma if_int_nonzero {A : Type} (v : option Z) (then_ : Z -> A) (else_ : A) :
  if_int v then_ else_
  = match nonzero_id v with
    | Some n => then_ n
    | None => else_
    end.
Proof.
  destruct (nonzero_id_cases v) as [(-> & [-> | ->]) | (n & -> & -> & Hn)];
    try reflexivity.
  unfold if_int. destruct (Z.eqb_spec n 0); [contradiction|reflexivity].
Qed.

Lemma matches_if_int (v : option Z) (q : Query) (test : Z -> criterion) (S : Sale.t) :
  matches (if_int v (fun n => filter_by q [test n]) q) S = true
  <-> matches q S = true
      /\ match nonzero_id v with
         | Some n => holds (test n) S = true
         | None => True
         end.
Proof.
  rewrite if_int_nonzero.
  destruct (nonzero_id v); rewrite ?matches_filter_by; cbn [forallb];
    rewrite ?andb_true_iff; tauto.
Qed.

Lemma matches_if_datetime (v : option datetime) (q : Query)
  (test : datetime -> criterion) (S : Sale.t) :
  matches (if_datetime v (fun d => filter_by q [test d]) q) S = true
  <-> matches q S = true
      /\ match v with
         | Some d => holds (test d) S = true
         | None => True
         end.
Proof.
  unfold if_datetime.
  destruct v as [d|]; rewrite ?matches_filter_by; cbn [forallb];
    rewrite ?andb_true_iff; tauto.
Qed.

Lemma bindable_if_int (v : option Z) (q : Query) (test : Z -> criterion) :
  forallb bindable (criteria (if_int v (fun n => filter_by q [test n]) q))
  = forallb bindable (criteria q)
    && match nonzero_id v with
       | Some n => bindable (test n)
       | None => true
       end.
Proof.
  rewrite if_int_nonzero.
  destruct (nonzero_id v); rewrite ?bindable_filter_by; cbn [forallb];
    rewrite ?andb_true_r; reflexivity.
Qed.

Lemma bindable_if_datetime (v : option datetime) (q : Query)
  (test : datetime -> criterion) :
  (forall d, bindable (test d) = true) ->
  forallb bindable (criteria (if_datetime v (fun d => filter_by q [test d]) q))
  = forallb bindable (criteria q).
Proof.
  intros H. unfold if_datetime.
  destruct v as [d|]; rewrite ?bindable_filter_by; cbn [forallb];
    rewrite ?H, ?andb_true_r; reflexivity.
Qed.

(** What the predicate of the listing tests, criterion by criterion. *)
Lemma listing_predicate_iff (C : FilterConfig) (S : Sale.t) :
  listing_predicate C S = true
  <-> match cfg_start_date C with
      | Some d => text_leb (bound_text d) (stamp_text (Sale.sale_date S)) = true
      | None => True
      end
      /\ match cfg_end_date C with
         | Some d => text_leb (stamp_text (Sale.sale_date S)) (bound_text d) = true
         | None => True
         end
      /\ match nonzero_id (cfg_product_id C) with
         | Some p => Sale.product_id S = p
         | None => True
         end
      /\ match nonzero_id (cfg_category_id C) with
         | Some c => Sale.category_id S = c
         | None => True
         end.
Proof.
  unfold listing_predicate, get_sales_query.
  rewrite !matches_if_int, !matches_if_datetime. cbn [holds].
  destruct (nonzero_id (cfg_product_id C)), (nonzero_id (cfg_category_id C));
    rewrite ?Z.eqb_eq; unfold matches; cbn; tauto.
Qed.

Lemma revenue_predicate_iff (params : RevenueQueryParams.t) (S : Sale.t) :
  revenue_predicate params S = true
  <-> text_leb (bound_text (RevenueQueryParams.start_date params))
        (stamp_text (Sale.sale_date S)) = true
      /\ text_leb (stamp_text (Sale.sale_date S))
           (bound_text (RevenueQueryParams.end_date params)) = true
      /\ match nonzero_id (RevenueQueryParams.product_id params) with
         | Some p => Sale.product_id S = p
         | None => True
         end
      /\ match nonzero_id (RevenueQueryParams.category_id params) with
         | Some c => Sale.category_id S = c
         | None => True
         end.
Proof.
  unfold revenue_predicate, revenue_query.
  rewrite !matches_if_int, matches_filter_by. cbn [holds forallb].
  destruct (nonzero_id (RevenueQueryParams.product_id params)),
    (nonzero_id (RevenueQueryParams.category_id params));
    rewrite ?Z.eqb_eq; unfold matches; cbn [forallb criteria query_Sale];
    rewrite ?andb_true_iff; tauto.
Qed.

Lemma id_fits_nonzero (v : option Z) :
  id_fits v ->
  match nonzero_id v with
  | Some n => in_int64 n
  | None => true
  end = true.
Proof.
  unfold id_fits. intros H.
  destruct (nonzero_id_cases v) as [(-> & _) | (n & -> & E & _)];
    [reflexivity|]. apply H. exact E.
Qed.

Lemma get_sales_query_bindable (start_date end_date : option datetime)
  (product_id category_id : option Z) :
  forallb bindable
    (criteria (get_sales_query start_date end_date product_id category_id))
  = match nonzero_id product_id with
    | Some n => in_int64 n
    | None => true
    end
    && match nonzero_id category_id with
       | Some n => in_int64 n
       | None => true
       end.
Proof.
  unfold get_sales_query.
  rewrite !bindable_if_int, !bindable_if_datetime by reflexivity.
  cbn [criteria query_Sale forallb bindable].
  destruct (nonzero_id product_id), (nonzero_id category_id); reflexivity.
Qed.

Lemma revenue_query_bindable (params : RevenueQueryParams.t) :
  forallb bindable (criteria (revenue_query params))
  = match nonzero_id (RevenueQueryParams.product_id params) with
    | Some n => in_int64 n
    | None => true
    end
    && match nonzero_id (RevenueQueryParams.category_id params) with
       | Some n => in_int64 n
       | None => true
       end.
Proof.
  unfold revenue_query.
  rewrite !bindable_if_int, bindable_filter_by.
  cbn [criteria query_Sale forallb bindable].
  destruct (nonzero_id (RevenueQueryParams.product_id params)),
    (nonzero_id (RevenueQueryParams.category_id params)); reflexivity.
Qed.

Lemma get_sales_fits (start_date end_date : option datetime)
  (product_id category_id : option Z) (db : list Sale.t) :
  id_fits product_id -> id_fits category_id ->
  get_sales start_date end_date product_id category_id db
  = Ok (rows (get_sales_query start_date end_date product_id category_id) db).
Proof.
  intros Hp Hc. unfold get_sales, all.
  rewrite get_sales_query_bindable, (id_fits_nonzero _ Hp), (id_fits_nonzero _ Hc).
  reflexivity.
Qed.

Lemma all_revenue_query_fits (params : RevenueQueryParams.t) (db : list Sale.t) :
  id_fits (RevenueQueryParams.product_id params) ->
  id_fits (RevenueQueryParams.category_id params) ->
  all (revenue_query params) db = Ok (rows (revenue_query params) db).
Proof.
  intros Hp Hc. unfold all.
  rewrite revenue_query_bindable, (id_fits_nonzero _ Hp), (id_fits_nonzero _ Hc).
  reflexivity.
Qed.

(** C2, as amended. For a sale stamped by the store (a time to the second)
    that is not stamped in the very second of a supplied start date, and for
    well-formed dates: the sale matches the predicate built by the sales
    listing, and the one built by the revenue computation, if and only if it
    satisfies every active constraint, where a date bound is active when
    supplied and is a bound in time, and a product or category constraint is
    active when a nonzero identifier is supplied. The listing returns the
    rows its predicate matches when the identifiers supplied fit the store's
    integers, and the empty configuration matches every row. *)
Theorem predicate_conjunction_law (C : FilterConfig)
  (params : RevenueQueryParams.t) (S : Sale.t) (db : list Sale.t) :
  stamped S ->
  ((forall d, cfg_start_date C = Some d -> ~ same_second d S) ->
   (forall d, cfg_end_date C = Some d -> valid_datetime d = true) ->
   (listing_predicate C S = true <-> spec_satisfies (effective_config C) S))
  /\ (~ same_second (RevenueQueryParams.start_date params) S ->
      valid_datetime (RevenueQueryParams.end_date params) = true ->
      (revenue_predicate params S = true
       <-> spec_satisfies (effective_config (config_of_params params)) S))
  /\ (id_fits (cfg_product_id C) -> id_fits (cfg_category_id C) ->
      get_sales (cfg_start_date C) (cfg_end_date C) (cfg_product_id C)
        (cfg_category_id C) db
      = Ok (filter (listing_predicate C) db))
  /\ listing_predicate (mk_config None None None None) S = true.
Proof.
  intros Hst. unfold stamped in Hst.
  assert (Hup : forall d, valid_datetime d = true ->
                  text_leb (stamp_text (Sale.sale_date S)) (bound_text d)
                  = datetime_leb (Sale.sale_date S) d).
  { intros d Hv. apply stamp_le_bound_in_time; [exact Hst|].
    apply valid_datetime_iff in Hv. destruct Hv as (_ & _ & _ & _ & Hus). lia. }
  split; [|split; [|split]].
  - intros Hs He. rewrite listing_predicate_iff, spec_satisfies_unfold.
    unfold effective_config.
    cbn [cfg_start_date cfg_end_date cfg_product_id cfg_category_id].
    destruct (cfg_start_date C) as [ds|], (cfg_end_date C) as [de|];
      rewrite ?(bound_le_stamp_in_time ds) by (apply (Hs ds eq_refl));
      rewrite ?(Hup de) by (apply (He de eq_refl)); reflexivity.
  - intros Hs He. rewrite revenue_predicate_iff, spec_satisfies_unfold.
    unfold effective_config, config_of_params.
    cbn [cfg_start_date cfg_end_date cfg_product_id cfg_category_id].
    rewrite bound_le_stamp_in_time by exact Hs.
    rewrite Hup by exact He. reflexivity.
  - intros Hp Hc. apply get_sales_fits; assumption.
  - reflexivity.
Qed.

Lemma predicate_conjunction_law_witness :
  stamped (Sale.mk 2 1 3 (Some 30%float) (midnight 2024 6 10) 1)
  /\ ~ same_second (midnight 2024 6 1)
         (Sale.mk 2 1 3 (Some 30%float) (midnight 2024 6 10) 1)
  /\ revenue_predicate
       (RevenueQueryParams.mk (midnight 2024 6 1) (midnight 2024 6 10) (Some 1)
          (Some 0))
       (Sale.mk 2 1 3 (Some 30%float) (midnight 2024 6 10) 1) = true.
Proof.
  assert (Hst : stamped (Sale.mk 2 1 3 (Some 30%float) (midnight 2024 6 10) 1))
    by reflexivity.
  assert (Hne : ~ same_second (midnight 2024 6 1)
                    (Sale.mk 2 1 3 (Some 30%float) (midnight 2024 6 10) 1))
    by (intros E; discriminate E).
  split; [exact Hst|]. split; [exact Hne|].
  apply (proj1 (proj2 (predicate_conjunction_law
                         (mk_config None None None None)
                         (RevenueQueryParams.mk (midnight 2024 6 1)
                            (midnight 2024 6 10) (Some 1) (Some 0))
                         (Sale.mk 2 1 3 (Some 30%float) (midnight 2024 6 10) 1)
                         [] Hst)) Hne eq_refl).
  repeat split; intros x [= <-]; reflexivity.
Defined.

(** C2, as stated, fails for a supplied identifier 0: with [product_id = 0]
    the listing predicate matches a sale of product 1, which does not satisfy
    the exact-match constraint on product 0. *)
Lemma predicate_zero_id_counterexample :
  listing_predicate (mk_config None None (Some 0) None)
    (Sale.mk 1 1 2 (Some 20%float) (midnight 2024 6 1) 1) = true
  /\ get_sales None None (Some 0) None june_sales = Ok june_sales
  /\ ~ spec_satisfies (mk_config None None (Some 0) None)
         (Sale.mk 1 1 2 (Some 20%float) (midnight 2024 6 1) 1).
Proof.
  split; [reflexivity|]. split; [reflexivity|].
  intros (_ & _ & H & _). specialize (H 0 eq_refl). discriminate H.
Qed.

Lemma listing_query_with_bounds (start_date end_date : datetime)
  (product_id category_id : option Z) :
  get_sales_query (Some start_date) (Some end_date) product_id category_id
  = revenue_query
      (RevenueQueryParams.mk start_date end_date product_id category_id).
Proof.
  unfold get_sales_query, revenue_query, if_datetime, if_int.
  cbn [RevenueQueryParams.start_date RevenueQueryParams.end_date
       RevenueQueryParams.product_id RevenueQueryParams.category_id].
  destruct product_id as [p|], category_id as [c|];
    try destruct (p =? 0); try destruct (c =? 0); reflexivity.
Qed.

(** C3. With both date bounds supplied, the sales listing and the revenue
    computation run with the same bounds and filters use the same predicate
    and the same query: the listing returns exactly the rows the revenue
    computation sums (or both raise the same exception), and the revenue is
    the sum over the listing. *)
Theorem listing_agrees_with_revenue (start_date end_date : datetime)
  (product_id category_id : option Z) (db : list Sale.t) (S : Sale.t) :
  let params :=
    RevenueQueryParams.mk start_date end_date product_id category_id in
  let listing :=
    get_sales (Some start_date) (Some end_date) product_id category_id db in
  listing_predicate
    (mk_config (Some start_date) (Some end_date) product_id category_id) S
  = revenue_predicate params S
  /\ listing = all (revenue_query params) db
  /\ calculate_revenue_for_period db params
     = (sales <- listing ;; sum_revenue sales 0%float).
Proof.
  cbv zeta. unfold listing_predicate, revenue_predicate, get_sales,
    calculate_revenue_for_period.
  cbn [cfg_start_date cfg_end_date cfg_product_id cfg_category_id].
  rewrite listing_query_with_bounds.
  split; [reflexivity|]. split; reflexivity.
Qed.

Lemma filter_all_true {A : Type} (f : A -> bool) (l : list A) :
  (forall x, f x = true) -> filter f l = l.
Proof.
  intros H. induction l as [|a l IH]; cbn; [reflexivity|].
  rewrite H, IH. reflexivity.
Qed.

(** C10. An identifier 0 is the same as no identifier: the listing and the
    revenue computation build the query they build when the filter is left
    out, so with [product_id = 0] (or [category_id = 0]) and nothing else
    supplied the listing returns every sale, whatever its product or
    category. *)
Theorem zero_id_is_no_filter (start_date end_date : option datetime)
  (product_id category_id : option Z) (params_start params_end : datetime)
  (db : list Sale.t) :
  get_sales start_date end_date (Some 0) category_id db
  = get_sales start_date end_date None category_id db
  /\ get_sales start_date end_date product_id (Some 0) db
     = get_sales start_date end_date product_id None db
  /\ calculate_revenue_for_period db
       (RevenueQueryParams.mk params_start params_end (Some 0) category_id)
     = calculate_revenue_for_period db
         (RevenueQueryParams.mk params_start params_end None category_id)
  /\ calculate_revenue_for_period db
       (RevenueQueryParams.mk params_start params_end product_id (Some 0))
     = calculate_revenue_for_period db
         (RevenueQueryParams.mk params_start params_end product_id None)
  /\ get_sales None None (Some 0) None db = Ok db
  /\ get_sales None None None (Some 0) db = Ok db.
Proof.
  assert (Hp : forall s e c,
             get_sales_query s e (Some 0) c = get_sales_query s e None c)
    by reflexivity.
  assert (Hc : forall s e p,
             get_sales_query s e p (Some 0) = get_sales_query s e p None)
    by (intros s e [p|]; reflexivity).
  unfold get_sales. rewrite Hp, Hc.
  split; [reflexivity|]. split; [reflexivity|].
  split; [reflexivity|]. split; [|split].
  - unfold calculate_revenue_for_period, revenue_query, if_int.
    cbn [RevenueQueryParams.category_id]. reflexivity.
  - unfold all, rows. cbn [get_sales_query if_datetime if_int Z.eqb criteria
                             query_Sale forallb].
    f_equal. apply filter_all_true. reflexivity.
  - unfold all, rows. cbn [get_sales_query if_datetime if_int Z.eqb criteria
                             query_Sale forallb].
    f_equal. apply filter_all_true. reflexivity.
Qed.

(** ** The revenue of a window *)

Lemma sum_revenue_present (sales : list Sale.t) (revenues : list float)
  (acc : float) :
  map Sale.revenue sales = map Some revenues ->
  sum_revenue sales acc = Ok (fold_left PrimFloat.add revenues acc).
Proof.
  revert revenues acc.
  induction sales as [|s sales IH]; intros [|r revenues] acc H;
    try discriminate H; [reflexivity|].
  cbn [map] in H. injection H as Hr Hrest.
  cbn [sum_revenue fold_left]. rewrite Hr. apply IH. exact Hrest.
Qed.

Lemma revenues_of_present (sales : list Sale.t) :
  (forall S, In S sales -> Sale.revenue S <> None) ->
  exists revenues, map Sale.revenue sales = map Some revenues.
Proof.
  induction sales as [|s sales IH]; intros H.
  - exists []. reflexivity.
  - destruct IH as (revenues & E).
    { intros S HS. apply H. right. exact HS. }
    destruct (Sale.revenue s) as [r|] eqn:Hr.
    + exists (r :: revenues). cbn [map]. rewrite Hr, E. reflexivity.
    + exfalso. apply (H s); [left; reflexivity|exact Hr].
Qed.

Lemma sum_revenue_with_quantity (q : Sale.t -> Z) (sales : list Sale.t)
  (acc : float) :
  sum_revenue (map (with_quantity q) sales) acc = sum_revenue sales acc.
Proof.
  revert acc. induction sales as [|s sales IH]; intros acc; [reflexivity|].
  cbn [map sum_revenue with_quantity Sale.revenue].
  destruct (Sale.revenue s); [apply IH|reflexivity].
Qed.

Lemma matches_with_quantity (Q : Query) (q : Sale.t -> Z) (s : Sale.t) :
  matches Q (with_quantity q s) = matches Q s.
Proof.
  unfold matches. induction (criteria Q) as [|c cs IH]; [reflexivity|].
  cbn [forallb]. rewrite IH. destruct c; reflexivity.
Qed.

Lemma rows_with_quantity (Q : Query) (q : Sale.t -> Z) (db : list Sale.t) :
  rows Q (map (with_quantity q) db) = map (with_quantity q) (rows Q db).
Proof.
  unfold rows. induction db as [|s db IH]; [reflexivity|].
  cbn [map filter]. rewrite matches_with_quantity.
  destruct (matches Q s); cbn [map]; rewrite IH; reflexivity.
Qed.

Lemma calculate_revenue_with_quantity (q : Sale.t -> Z) (db : list Sale.t)
  (params : RevenueQueryParams.t) :
  calculate_revenue_for_period (map (with_quantity q) db) params
  = calculate_revenue_for_period db params.
Proof.
  unfold calculate_revenue_for_period, all.
  destruct (forallb bindable (criteria (revenue_query params)));
    [|reflexivity].
  cbn [bind]. rewrite rows_with_quantity. apply sum_revenue_with_quantity.
Qed.

(** The rows the revenue computation sums are the rows inside the window, in
    time, that pass the filters in force, when the table holds stamps of the
    store none of which falls in the very second of the start date. *)
Lemma rows_of_window (db : list Sale.t) (params : RevenueQueryParams.t) :
  (forall S, In S db -> stamped S) ->
  (forall S, In S db -> ~ same_second (RevenueQueryParams.start_date params) S) ->
  valid_datetime (RevenueQueryParams.end_date params) = true ->
  rows (revenue_query params) db
  = filter (spec_matches (effective_config (config_of_params params))) db.
Proof.
  intros Hst Hne Hv. unfold rows. apply filter_ext_in. intros S HS.
  fold (revenue_predicate params S).
  apply eq_true_iff_eq. rewrite spec_matches_iff.
  rewrite revenue_predicate_iff, spec_satisfies_unfold.
  unfold effective_config, config_of_params.
  cbn [cfg_start_date cfg_end_date cfg_product_id cfg_category_id].
  rewrite bound_le_stamp_in_time by (apply Hne; exact HS).
  rewrite stamp_le_bound_in_time.
  - reflexivity.
  - apply Hst. exact HS.
  - apply valid_datetime_iff in Hv. destruct Hv as (_ & _ & _ & _ & Hus). lia.
Qed.

(** C6, as amended. When the identifiers supplied fit the store's integers,
    the sales are stamped by the store, none in the very second of the start
    date, and the sales inside the window that pass the filters hold a
    revenue, the revenue of the window is the float sum, from 0.0 and in
    store order, of the [revenue] fields of those sales, and it is 0.0 when
    there is none. The result never depends on the quantities of the
    sales. *)
Theorem revenue_is_sum_of_revenue_fields (db : list Sale.t)
  (params : RevenueQueryParams.t) (q : Sale.t -> Z) :
  let matching :=
    filter (spec_matches (effective_config (config_of_params params))) db in
  id_fits (RevenueQueryParams.product_id params) ->
  id_fits (RevenueQueryParams.category_id params) ->
  (forall S, In S db -> stamped S) ->
  (forall S, In S db -> ~ same_second (RevenueQueryParams.start_date params) S) ->
  valid_datetime (RevenueQueryParams.end_date params) = true ->
  (forall S, In S matching -> Sale.revenue S <> None) ->
  (exists revenues,
      map Sale.revenue matching = map Some revenues
      /\ calculate_revenue_for_period db params
         = Ok (fold_left PrimFloat.add revenues 0%float))
  /\ calculate_revenue_for_period (map (with_quantity q) db) params
     = calculate_revenue_for_period db params
  /\ (matching = [] -> calculate_revenue_for_period db params = Ok 0%float).
Proof.
  cbv zeta. intros Hp Hc Hst Hne Hv Hrev.
  assert (E : calculate_revenue_for_period db params
              = sum_revenue
                  (filter (spec_matches (effective_config (config_of_params params)))
                     db) 0%float).
  { unfold calculate_revenue_for_period.
    rewrite (all_revenue_query_fits _ _ Hp Hc). cbn [bind].
    rewrite (rows_of_window _ _ Hst Hne Hv). reflexivity. }
  split; [|split].
  - destruct (revenues_of_present _ Hrev) as (revenues & Hmap).
    exists revenues. split; [exact Hmap|].
    rewrite E. apply sum_revenue_present. exact Hmap.
  - apply calculate_revenue_with_quantity.
  - intros Hnone. rewrite E, Hnone. reflexivity.
Qed.

Lemma revenue_is_sum_of_revenue_fields_witness :
  exists revenues,
    map Sale.revenue
      (filter
         (spec_matches
            (effective_config
               (config_of_params
                  (RevenueQueryParams.mk (midnight 2024 5 31) (midnight 2024 6 10)
                     (Some 1) None))))
         june_sales)
    = map Some revenues
    /\ calculate_revenue_for_period june_sales
         (RevenueQueryParams.mk (midnight 2024 5 31) (midnight 2024 6 10)
            (Some 1) None)
       = Ok (fold_left PrimFloat.add revenues 0%float).
Proof.
  apply (revenue_is_sum_of_revenue_fields june_sales
           (RevenueQueryParams.mk (midnight 2024 5 31) (midnight 2024 6 10)
              (Some 1) None)
           Sale.quantity).
  - intros n [= <-]. reflexivity.
  - intros n [=].
  - intros S [<- | [<- | []]]; reflexivity.
  - intros S [<- | [<- | []]] E; discriminate E.
  - reflexivity.
  - intros S [<- | [<- | []]]; discriminate.
Defined.

(** C6, as stated, fails: with a product identifier that does not fit the
    store's integers no sale matches, and the computation raises
    [OverflowError]; and a sale whose revenue was stored as NULL makes the sum
    raise [TypeError]. *)
Lemma revenue_overflow_counterexample :
  filter
    (spec_matches
       (config_of_params
          (RevenueQueryParams.mk (midnight 2024 5 31) (midnight 2024 6 10)
             (Some 9223372036854775808) None)))
    june_sales = []
  /\ calculate_revenue_for_period june_sales
       (RevenueQueryParams.mk (midnight 2024 5 31) (midnight 2024 6 10)
          (Some 9223372036854775808) None)
     = Err OverflowError
  /\ calculate_revenue_for_period
       [Sale.mk 1 1 2 (store_float nan) (midnight 2024 6 1) 1]
       (RevenueQueryParams.mk (midnight 2024 5 31) (midnight 2024 6 10) None None)
     = Err TypeError.
Proof. repeat split. Qed.

(** ** The period loop *)

Lemma revenue_loop_cons (p : period) (todo : list period) (s e : datetime)
  (pid cid : option Z) (db : list Sale.t) (acc : list RevenueAnalysis.t) :
  revenue_loop (p :: todo) s e pid cid db acc
  = (w <- period_end p s e ;;
     revenue <- calculate_revenue_for_period db
                  (RevenueQueryParams.mk s w pid cid) ;;
     revenue_loop todo s w pid cid db
       (acc ++ [RevenueAnalysis.mk (label p) revenue])).
Proof. reflexivity. Qed.

Lemma independent_series_cons (p : period) (todo : list period)
  (s e : datetime) (pid cid : option Z) (db : list Sale.t) :
  independent_series (p :: todo) s e pid cid db
  = (x <- independent_entry p s e pid cid db ;;
     xs <- independent_series todo s e pid cid db ;;
     Ok (x :: xs)).
Proof. reflexivity. Qed.

Lemma period_end_ignores_end_date (p : period) (s e e' : datetime) :
  p <> Daily -> period_end p s e = period_end p s e'.
Proof.
  destruct p; [contradiction|reflexivity..].
Qed.

Lemma revenue_loop_without_daily (todo : list period) (s e0 : datetime)
  (pid cid : option Z) (db : list Sale.t) :
  ~ In Daily todo ->
  forall (e : datetime) (acc : list RevenueAnalysis.t),
    revenue_loop todo s e pid cid db acc
    = (es <- independent_series todo s e0 pid cid db ;; Ok (acc ++ es)).
Proof.
  induction todo as [|p todo IH]; intros Hno e acc.
  - cbn. rewrite app_nil_r. reflexivity.
  - rewrite revenue_loop_cons, independent_series_cons. unfold independent_entry.
    rewrite (period_end_ignores_end_date p s e e0)
      by (intros ->; apply Hno; left; reflexivity).
    destruct (period_end p s e0) as [w|x]; cbn [bind]; [|reflexivity].
    destruct (calculate_revenue_for_period db
                (RevenueQueryParams.mk s w pid cid)) as [r|x];
      cbn [bind]; [|reflexivity].
    rewrite IH by (intros H; apply Hno; right; exact H).
    destruct (independent_series todo s e0 pid cid db) as [es|x]; cbn [bind];
      [|reflexivity].
    rewrite <- app_assoc. reflexivity.
Qed.

(** The loop of the endpoint computes each period from the caller's dates:
    the carried [end_date] is read by the daily branch only, which runs
    first. *)
Lemma revenue_analysis_independent (s e : datetime) (pid cid : option Z)
  (db : list Sale.t) :
  revenue_analysis s e pid cid db = independent_series periods s e pid cid db.
Proof.
  unfold revenue_analysis, periods.
  rewrite revenue_loop_cons, independent_series_cons.
  unfold independent_entry at 1. cbn [period_end bind].
  destruct (calculate_revenue_for_period db (RevenueQueryParams.mk s e pid cid))
    as [r|x]; cbn [bind]; [|reflexivity].
  rewrite (revenue_loop_without_daily [Weekly; Monthly; Annual] s e).
  - destruct (independent_series [Weekly; Monthly; Annual] s e pid cid db);
      reflexivity.
  - intros [H | [H | [H | []]]]; discriminate H.
Qed.

Lemma label_eqb (p q : period) :
  String.eqb (label q) (label p) = true <-> q = p.
Proof.
  destruct p, q; cbn; split; intros H; try reflexivity; discriminate H.
Qed.

Lemma independent_entry_label (p : period) (s e : datetime)
  (pid cid : option Z) (db : list Sale.t) (x : RevenueAnalysis.t) :
  independent_entry p s e pid cid db = Ok x -> RevenueAnalysis.period x = label p.
Proof.
  unfold independent_entry.
  destruct (period_end p s e) as [w|]; cbn [bind]; [|discriminate].
  destruct (calculate_revenue_for_period db (RevenueQueryParams.mk s w pid cid));
    cbn [bind]; [|discriminate].
  intros [= <-]. reflexivity.
Qed.

Lemma independent_series_entries (todo : list period) (s e : datetime)
  (pid cid : option Z) (db : list Sale.t) (es : list RevenueAnalysis.t) :
  independent_series todo s e pid cid db = Ok es
  <-> Forall2 (fun p x => independent_entry p s e pid cid db = Ok x) todo es.
Proof.
  revert es. induction todo as [|p todo IH]; intros es; cbn [independent_series].
  - split.
    + intros [= <-]. constructor.
    + intros H. inversion H. reflexivity.
  - destruct (independent_entry p s e pid cid db) as [x|err] eqn:Ex; cbn [bind].
    + destruct (independent_series todo s e pid cid db) as [xs|err] eqn:Exs;
        cbn [bind].
      * split.
        -- intros [= <-]. constructor; [exact Ex|]. apply IH. reflexivity.
        -- intros H. inversion H as [|p' y todo' ys Hy Hys]; subst.
           rewrite Ex in Hy. injection Hy as <-.
           apply IH in Hys. injection Hys as <-. reflexivity.
      * split; [discriminate|].
        intros H. inversion H as [|p' y todo' ys Hy Hys]; subst.
        apply IH in Hys. discriminate Hys.
    + split; [discriminate|].
      intros H. inversion H as [|p' y todo' ys Hy Hys]; subst.
      rewrite Ex in Hy. discriminate Hy.
Qed.

Lemma entry_of_series (todo : list period) (s e : datetime)
  (pid cid : option Z) (db : list Sale.t) (es : list RevenueAnalysis.t) :
  Forall2 (fun p x => independent_entry p s e pid cid db = Ok x) todo es ->
  forall p x,
    In p todo -> independent_entry p s e pid cid db = Ok x ->
    entry p es = Some (RevenueAnalysis.revenue x).
Proof.
  induction 1 as [|q y todo es Hy _ IH]; intros p x Hin Hx; [contradiction|].
  unfold entry. cbn [find]. rewrite (independent_entry_label _ _ _ _ _ _ _ Hy).
  destruct (String.eqb (label q) (label p)) eqn:E.
  - apply label_eqb in E. subst q. rewrite Hx in Hy. injection Hy as <-.
    reflexivity.
  - apply IH; [|exact Hx]. destruct Hin as [-> | Hin]; [|exact Hin].
    assert (T : String.eqb (label p) (label p) = true)
      by (apply label_eqb; reflexivity).
    rewrite T in E. discriminate E.
Qed.

Lemma series_entry_exists (todo : list period) (s e : datetime)
  (pid cid : option Z) (db : list Sale.t) (es : list RevenueAnalysis.t) :
  Forall2 (fun p x => independent_entry p s e pid cid db = Ok x) todo es ->
  forall p, In p todo -> exists x, independent_entry p s e pid cid db = Ok x.
Proof.
  induction 1 as [|q y todo es Hy _ IH]; intros p Hin; [contradiction|].
  destruct Hin as [<- | Hin]; [exists y; exact Hy|apply IH; exact Hin].
Qed.

Lemma series_determined (todo : list period) (s e : datetime)
  (pid cid : option Z) (db : list Sale.t) (es es' : list RevenueAnalysis.t) :
  Forall2 (fun p x => independent_entry p s e pid cid db = Ok x) todo es ->
  Forall2 (fun p x => independent_entry p s e pid cid db = Ok x) todo es' ->
  es = es'.
Proof.
  intros H. rewrite <- !independent_series_entries.
  apply independent_series_entries in H. rewrite H. intros [= <-]. reflexivity.
Qed.

Lemma every_period (p : period) : In p periods.
Proof.
  destruct p; cbn; tauto.
Qed.

(** C7. Each window is a function of the caller's start and end date alone:
    the weekly, monthly and annual ends never read the loop's [end_date], the
    daily branch reads it before any branch has assigned it, and the endpoint
    returns what the periods computed one by one, with no carried variable,
    return. Computed so in any order, the periods all succeed exactly when
    the endpoint does, and each period is reported with the revenue the
    endpoint reports for it. *)
Theorem periods_are_independent (start_date end_date : datetime)
  (product_id category_id : option Z) (db : list Sale.t) (order : list period) :
  Permutation order periods ->
  revenue_analysis start_date end_date product_id category_id db
  = independent_series periods start_date end_date product_id category_id db
  /\ period_end Daily start_date end_date = Ok end_date
  /\ (forall p carried,
        p <> Daily ->
        period_end p start_date carried = period_end p start_date end_date)
  /\ ((exists series,
         revenue_analysis start_date end_date product_id category_id db
         = Ok series)
      <-> (exists series',
             independent_series order start_date end_date product_id
               category_id db = Ok series'))
  /\ (forall series series',
        revenue_analysis start_date end_date product_id category_id db
        = Ok series ->
        independent_series order start_date end_date product_id category_id db
        = Ok series' ->
        Permutation series' series
        /\ forall p, entry p series' = entry p series).
Proof.
  intros Hperm. rewrite revenue_analysis_independent.
  split; [reflexivity|]. split; [reflexivity|].
  split; [intros p carried Hp; apply period_end_ignores_end_date; exact Hp|].
  split; [split|].
  - intros (series & H). apply independent_series_entries in H.
    destruct (Permutation_Forall2 (Permutation_sym Hperm) H)
      as (series' & _ & H').
    exists series'. apply independent_series_entries. exact H'.
  - intros (series' & H). apply independent_series_entries in H.
    destruct (Permutation_Forall2 Hperm H) as (series & _ & H').
    exists series. apply independent_series_entries. exact H'.
  - intros series series' H H'.
    apply independent_series_entries in H, H'.
    destruct (Permutation_Forall2 Hperm H') as (series0 & Hp0 & H0).
    rewrite (series_determined _ _ _ _ _ _ _ _ H H0).
    split; [exact Hp0|]. intros p.
    destruct (series_entry_exists _ _ _ _ _ _ _ H p (every_period p))
      as (x & Hx).
    rewrite (entry_of_series _ _ _ _ _ _ _ H0 p x (every_period p) Hx).
    apply (entry_of_series _ _ _ _ _ _ _ H' p x); [|exact Hx].
    apply (Permutation_in _ (Permutation_sym Hperm)), every_period.
Qed.

Lemma periods_are_independent_witness :
  Permutation [Annual; Monthly; Weekly; Daily] periods
  /\ independent_series [Annual; Monthly; Weekly; Daily]
       (midnight 2024 5 31) (midnight 2024 6 10) None None june_sales
     = Ok [ RevenueAnalysis.mk "annual" 50%float;
            RevenueAnalysis.mk "monthly" 0%float;
            RevenueAnalysis.mk "weekly" 20%float;
            RevenueAnalysis.mk "daily" 50%float ]
  /\ forall p,
       entry p [ RevenueAnalysis.mk "annual" 50%float;
                 RevenueAnalysis.mk "monthly" 0%float;
                 RevenueAnalysis.mk "weekly" 20%float;
                 RevenueAnalysis.mk "daily" 50%float ]
       = entry p [ RevenueAnalysis.mk "daily" 50%float;
                   RevenueAnalysis.mk "weekly" 20%float;
                   RevenueAnalysis.mk "monthly" 0%float;
                   RevenueAnalysis.mk "annual" 50%float ].
Proof.
  assert (P : Permutation [Annual; Monthly; Weekly; Daily] periods)
    by exact (Permutation_sym (Permutation_rev periods)).
  split; [exact P|]. split; [reflexivity|].
  apply (proj2 (proj2 (proj2 (proj2
           (periods_are_independent (midnight 2024 5 31) (midnight 2024 6 10)
              None None june_sales [Annual; Monthly; Weekly; Daily] P)))));
    reflexivity.
Defined.

Lemma toordinal_before_last_year (s : datetime) :
  valid_datetime s = true -> year s <> 9999 ->
  toordinal s + 6 <= MAXORDINAL.
Proof.
  intros Hv Hy. apply valid_datetime_iff in Hv.
  destruct Hv as ((Hy' & Hm & Hd) & _).
  pose proof (ymd2ord_bounds _ _ _ Hm Hd) as B.
  pose proof (days_before_year_mono (year s + 1) 9999 ltac:(lia)) as M.
  change (days_before_year 9999) with 3651694 in M.
  unfold toordinal, MAXORDINAL. lia.
Qed.

Lemma period_end_cases (p : period) (s e : datetime) :
  valid_datetime s = true ->
  period_end p s e
  = match p with
    | Daily => Ok e
    | Weekly =>
        if toordinal s + 6 <=? MAXORDINAL then Ok (plus_days s 6)
        else Err OverflowError
    | Monthly =>
        if month s =? 12 then Err ValueError else Ok (last_day_of_month s)
    | Annual =>
        if year s =? 9999 then Err ValueError else Ok (december_31 s)
    end.
Proof.
  intros Hv. destruct p.
  - reflexivity.
  - rewrite (weekly_end _ _ Hv). unfold plus_days.
    destruct (toordinal s + 6 <=? MAXORDINAL); [|reflexivity].
    destruct (ord2ymd (toordinal s + 6)) as [[y m] d]. reflexivity.
  - apply (monthly_end _ _ Hv).
  - apply (annual_end _ _ Hv).
Qed.

(** The endpoint in one equation: the branches run in the fixed order and the
    first exception ends the request. *)
Lemma revenue_analysis_cases (s e : datetime) (pid cid : option Z)
  (db : list Sale.t) :
  valid_datetime s = true ->
  let revenue_until window_end :=
    calculate_revenue_for_period db
      (RevenueQueryParams.mk s window_end pid cid) in
  revenue_analysis s e pid cid db
  = (daily <- revenue_until e ;;
     if negb (toordinal s + 6 <=? MAXORDINAL) then Err OverflowError
     else
       weekly <- revenue_until (plus_days s 6) ;;
       if month s =? 12 then Err ValueError
       else
         monthly <- revenue_until (last_day_of_month s) ;;
         if year s =? 9999 then Err ValueError
         else
           annual <- revenue_until (december_31 s) ;;
           Ok [ RevenueAnalysis.mk "daily" daily;
                RevenueAnalysis.mk "weekly" weekly;
                RevenueAnalysis.mk "monthly" monthly;
                RevenueAnalysis.mk "annual" annual ]).
Proof.
  intros Hv. cbv zeta. unfold revenue_analysis, periods.
  rewrite revenue_loop_cons. cbn [period_end bind].
  destruct (calculate_revenue_for_period db (RevenueQueryParams.mk s e pid cid))
    as [d|x]; cbn [bind]; [|reflexivity].
  rewrite revenue_loop_cons, (period_end_cases Weekly _ _ Hv).
  destruct (toordinal s + 6 <=? MAXORDINAL); cbn [negb bind]; [|reflexivity].
  destruct (calculate_revenue_for_period db
              (RevenueQueryParams.mk s (plus_days s 6) pid cid))
    as [w|x]; cbn [bind]; [|reflexivity].
  rewrite revenue_loop_cons, (period_end_cases Monthly _ _ Hv).
  destruct (month s =? 12); cbn [bind]; [reflexivity|].
  destruct (calculate_revenue_for_period db
              (RevenueQueryParams.mk s (last_day_of_month s) pid cid))
    as [m|x]; cbn [bind]; [|reflexivity].
  rewrite revenue_loop_cons, (period_end_cases Annual _ _ Hv).
  destruct (year s =? 9999); cbn [bind]; [reflexivity|].
  destruct (calculate_revenue_for_period db
              (RevenueQueryParams.mk s (december_31 s) pid cid))
    as [a|x]; cbn [bind]; reflexivity.
Qed.

(** The revenue computation returns when the identifiers can be bound and
    every sale holds a revenue. *)
Lemma calculate_revenue_returns (db : list Sale.t)
  (params : RevenueQueryParams.t) :
  id_fits (RevenueQueryParams.product_id params) ->
  id_fits (RevenueQueryParams.category_id params) ->
  revenues_present db ->
  exists revenue, calculate_revenue_for_period db params = Ok revenue.
Proof.
  intros Hp Hc Hrev. unfold calculate_revenue_for_period.
  rewrite (all_revenue_query_fits _ _ Hp Hc). cbn [bind].
  destruct (revenues_of_present (rows (revenue_query params) db))
    as (revenues & E).
  { intros S HS. apply Hrev. unfold rows in HS. apply filter_In in HS.
    apply HS. }
  rewrite (sum_revenue_present _ _ _ E). eexists. reflexivity.
Qed.

(** Away from December and from year 9999 no branch raises: the endpoint
    runs the four computations in turn. *)
Lemma revenue_analysis_in_range (s e : datetime) (pid cid : option Z)
  (db : list Sale.t) :
  valid_datetime s = true -> month s <> 12 -> year s <> 9999 ->
  revenue_analysis s e pid cid db
  = (daily <- calculate_revenue_for_period db
                (RevenueQueryParams.mk s e pid cid) ;;
     weekly <- calculate_revenue_for_period db
                 (RevenueQueryParams.mk s (plus_days s 6) pid cid) ;;
     monthly <- calculate_revenue_for_period db
                  (RevenueQueryParams.mk s (last_day_of_month s) pid cid) ;;
     annual <- calculate_revenue_for_period db
                 (RevenueQueryParams.mk s (december_31 s) pid cid) ;;
     Ok [ RevenueAnalysis.mk "daily" daily;
          RevenueAnalysis.mk "weekly" weekly;
          RevenueAnalysis.mk "monthly" monthly;
          RevenueAnalysis.mk "annual" annual ]).
Proof.
  intros Hv Hm Hy. rewrite (revenue_analysis_cases _ _ _ _ _ Hv). cbv zeta.
  pose proof (toordinal_before_last_year _ Hv Hy) as B.
  destruct (Z.leb_spec (toordinal s + 6) MAXORDINAL) as [L|L];
    [|exfalso; clear - L B; generalize dependent (toordinal s);
      intros t L B; lia].
  destruct (Z.eqb_spec (month s) 12); [contradiction|].
  destruct (Z.eqb_spec (year s) 9999); [contradiction|].
  reflexivity.
Qed.

(** C9, as amended. For every request whose start date lies in a year before
    9999 and in a month other than December, the endpoint computes the
    revenue of the caller's range from start date to end date, unchanged, then
    the revenues from the start date to the start date plus six days, to the
    last day of its month and to December 31 of its year, and returns the
    four, labelled daily, weekly, monthly and annual in this order; an
    exception of one of the four computations ends the request. When the
    identifiers supplied fit the store's integers and every sale holds a
    revenue, the four computations return and so does the endpoint. *)
Theorem revenue_analysis_series (start_date end_date : datetime)
  (product_id category_id : option Z) (db : list Sale.t) :
  valid_datetime start_date = true ->
  month start_date <> 12 ->
  year start_date <> 9999 ->
  let revenue_until window_end :=
    calculate_revenue_for_period db
      (RevenueQueryParams.mk start_date window_end product_id category_id) in
  revenue_analysis start_date end_date product_id category_id db
  = (daily <- revenue_until end_date ;;
     weekly <- revenue_until (plus_days start_date 6) ;;
     monthly <- revenue_until (last_day_of_month start_date) ;;
     annual <- revenue_until (december_31 start_date) ;;
     Ok [ RevenueAnalysis.mk "daily" daily;
          RevenueAnalysis.mk "weekly" weekly;
          RevenueAnalysis.mk "monthly" monthly;
          RevenueAnalysis.mk "annual" annual ])
  /\ (id_fits product_id -> id_fits category_id -> revenues_present db ->
      exists daily weekly monthly annual,
        revenue_until end_date = Ok daily
        /\ revenue_until (plus_days start_date 6) = Ok weekly
        /\ revenue_until (last_day_of_month start_date) = Ok monthly
        /\ revenue_until (december_31 start_date) = Ok annual
        /\ revenue_analysis start_date end_date product_id category_id db
           = Ok [ RevenueAnalysis.mk "daily" daily;
                  RevenueAnalysis.mk "weekly" weekly;
                  RevenueAnalysis.mk "monthly" monthly;
                  RevenueAnalysis.mk "annual" annual ]).
Proof.
  intros Hv Hm Hy. cbv zeta.
  pose proof (revenue_analysis_in_range start_date end_date product_id
                category_id db Hv Hm Hy) as E.
  split; [exact E|].
  intros Hp Hc Hrev. rewrite E.
  destruct (calculate_revenue_returns db
              (RevenueQueryParams.mk start_date end_date product_id category_id)
              Hp Hc Hrev) as (d & ->).
  destruct (calculate_revenue_returns db
              (RevenueQueryParams.mk start_date (plus_days start_date 6)
                 product_id category_id) Hp Hc Hrev) as (w & ->).
  destruct (calculate_revenue_returns db
              (RevenueQueryParams.mk start_date (last_day_of_month start_date)
                 product_id category_id) Hp Hc Hrev) as (m & ->).
  destruct (calculate_revenue_returns db
              (RevenueQueryParams.mk start_date (december_31 start_date)
                 product_id category_id) Hp Hc Hrev) as (a & ->).
  exists d, w, m, a. repeat split.
Qed.

Lemma revenue_analysis_series_witness :
  valid_datetime (midnight 2024 5 31) = true
  /\ month (midnight 2024 5 31) <> 12
  /\ year (midnight 2024 5 31) <> 9999
  /\ id_fits (Some 1)
  /\ revenues_present june_sales
  /\ revenue_analysis (midnight 2024 5 31) (midnight 2024 6 10) (Some 1) None
       june_sales
     = Ok [ RevenueAnalysis.mk "daily" 50%float;
            RevenueAnalysis.mk "weekly" 20%float;
            RevenueAnalysis.mk "monthly" 0%float;
            RevenueAnalysis.mk "annual" 50%float ].
Proof.
  assert (Hm : month (midnight 2024 5 31) <> 12) by discriminate.
  assert (Hy : year (midnight 2024 5 31) <> 9999) by discriminate.
  assert (Hp : id_fits (Some 1)) by (intros n [= <-]; reflexivity).
  assert (Hc : id_fits None) by (intros n [=]).
  assert (Hrev : revenues_present june_sales)
    by (intros S [<- | [<- | []]]; discriminate).
  split; [reflexivity|]. split; [exact Hm|]. split; [exact Hy|].
  split; [exact Hp|]. split; [exact Hrev|].
  destruct (proj2 (revenue_analysis_series (midnight 2024 5 31)
                     (midnight 2024 6 10) (Some 1) None june_sales
                     eq_refl Hm Hy) Hp Hc Hrev)
    as (d & w & m & a & Hd & Hw & Hmo & Ha & E).
  rewrite E.
  injection Hd as <-. injection Hw as <-. injection Hmo as <-.
  injection Ha as <-. reflexivity.
Defined.

(** C9, as stated, fails in the last year of the calendar: for a start date
    of June 9999 the annual branch raises [ValueError] and the endpoint returns
    no series. *)
Lemma revenue_analysis_last_year :
  valid_datetime (midnight 9999 6 1) = true
  /\ valid_datetime (midnight 9999 6 10) = true
  /\ revenue_analysis (midnight 9999 6 1) (midnight 9999 6 10) None None june_sales
     = Err ValueError.
Proof. repeat split. Qed.

(** X1. For a start date in December the endpoint returns no series. When the
    identifiers supplied fit the store's integers and every sale holds a
    revenue, the exception is the [ValueError] of the monthly branch, unless
    the weekly branch has already raised [OverflowError] (start dates after
    9999-12-25). *)
Theorem revenue_analysis_december (start_date end_date : datetime)
  (product_id category_id : option Z) (db : list Sale.t) :
  valid_datetime start_date = true ->
  month start_date = 12 ->
  (forall series,
     revenue_analysis start_date end_date product_id category_id db
     <> Ok series)
  /\ (id_fits product_id -> id_fits category_id -> revenues_present db ->
      revenue_analysis start_date end_date product_id category_id db
      = Err (if toordinal start_date + 6 <=? MAXORDINAL
             then ValueError else OverflowError)).
Proof.
  intros Hv Hm. rewrite (revenue_analysis_cases _ _ _ _ _ Hv). cbv zeta.
  rewrite Hm. cbn [Z.eqb Pos.eqb].
  split.
  - intros series.
    destruct (calculate_revenue_for_period db
                (RevenueQueryParams.mk start_date end_date product_id
                   category_id)); cbn [bind]; [|discriminate].
    destruct (toordinal start_date + 6 <=? MAXORDINAL); cbn [negb];
      [|discriminate].
    destruct (calculate_revenue_for_period db
                (RevenueQueryParams.mk start_date (plus_days start_date 6)
                   product_id category_id)); cbn [bind]; discriminate.
  - intros Hp Hc Hrev.
    destruct (calculate_revenue_returns db
                (RevenueQueryParams.mk start_date end_date product_id
                   category_id) Hp Hc Hrev) as (d & ->).
    destruct (calculate_revenue_returns db
                (RevenueQueryParams.mk start_date (plus_days start_date 6)
                   product_id category_id) Hp Hc Hrev) as (w & ->).
    cbn [bind].
    destruct (toordinal start_date + 6 <=? MAXORDINAL); reflexivity.
Qed.

Lemma revenue_analysis_december_witness :
  valid_datetime (midnight 2024 12 15) = true
  /\ month (midnight 2024 12 15) = 12
  /\ revenues_present june_sales
  /\ revenue_analysis (midnight 2024 12 15) (midnight 2024 12 31) None None
       june_sales
     = Err ValueError.
Proof.
  assert (Hc : id_fits None) by (intros n [=]).
  assert (Hrev : revenues_present june_sales)
    by (intros S [<- | [<- | []]]; discriminate).
  split; [reflexivity|]. split; [reflexivity|]. split; [exact Hrev|].
  exact (proj2 (revenue_analysis_december (midnight 2024 12 15)
                  (midnight 2024 12 31) None None june_sales eq_refl eq_refl)
           Hc Hc Hrev).
Defined.

(** X2. For a well-formed start date the endpoint returns a series only when
    the start date lies neither in December nor in year 9999. When the
    identifiers supplied fit the store's integers and every sale holds a
    revenue, it returns a series exactly then, and in every other case it
    raises [ValueError] or [OverflowError], whatever the end date. *)
Theorem revenue_analysis_succeeds_iff (start_date end_date : datetime)
  (product_id category_id : option Z) (db : list Sale.t) :
  valid_datetime start_date = true ->
  ((exists series,
      revenue_analysis start_date end_date product_id category_id db = Ok series)
   -> month start_date <> 12 /\ year start_date <> 9999)
  /\ (id_fits product_id -> id_fits category_id -> revenues_present db ->
      ((exists series,
          revenue_analysis start_date end_date product_id category_id db
          = Ok series)
       <-> month start_date <> 12 /\ year start_date <> 9999)
      /\ ((month start_date = 12 \/ year start_date = 9999) ->
          revenue_analysis start_date end_date product_id category_id db
          = Err ValueError
          \/ revenue_analysis start_date end_date product_id category_id db
             = Err OverflowError)).
Proof.
  intros Hv.
  assert (N : (exists series,
                 revenue_analysis start_date end_date product_id category_id db
                 = Ok series)
              -> month start_date <> 12 /\ year start_date <> 9999).
  { rewrite (revenue_analysis_cases _ _ _ _ _ Hv). cbv zeta.
    intros (series & H).
    destruct (calculate_revenue_for_period db
                (RevenueQueryParams.mk start_date end_date product_id
                   category_id)); cbn [bind] in H; [|discriminate].
    destruct (toordinal start_date + 6 <=? MAXORDINAL); cbn [negb] in H;
      [|discriminate].
    destruct (calculate_revenue_for_period db
                (RevenueQueryParams.mk start_date (plus_days start_date 6)
                   product_id category_id)); cbn [bind] in H; [|discriminate].
    destruct (Z.eqb_spec (month start_date) 12); [discriminate|].
    destruct (calculate_revenue_for_period db
                (RevenueQueryParams.mk start_date (last_day_of_month start_date)
                   product_id category_id)); cbn [bind] in H; [|discriminate].
    destruct (Z.eqb_spec (year start_date) 9999); [discriminate|].
    split; assumption. }
  split; [exact N|]. intros Hp Hc Hrev. split; [split; [exact N|]|].
  - intros (Hm & Hy).
    rewrite (revenue_analysis_in_range _ _ _ _ _ Hv Hm Hy).
    destruct (calculate_revenue_returns db
                (RevenueQueryParams.mk start_date end_date product_id
                   category_id) Hp Hc Hrev) as (d & ->).
    destruct (calculate_revenue_returns db
                (RevenueQueryParams.mk start_date (plus_days start_date 6)
                   product_id category_id) Hp Hc Hrev) as (w & ->).
    destruct (calculate_revenue_returns db
                (RevenueQueryParams.mk start_date (last_day_of_month start_date)
                   product_id category_id) Hp Hc Hrev) as (m & ->).
    destruct (calculate_revenue_returns db
                (RevenueQueryParams.mk start_date (december_31 start_date)
                   product_id category_id) Hp Hc Hrev) as (a & ->).
    eexists. reflexivity.
  - intros Hor. rewrite (revenue_analysis_cases _ _ _ _ _ Hv). cbv zeta.
    destruct (calculate_revenue_returns db
                (RevenueQueryParams.mk start_date end_date product_id
                   category_id) Hp Hc Hrev) as (d & ->).
    destruct (calculate_revenue_returns db
                (RevenueQueryParams.mk start_date (plus_days start_date 6)
                   product_id category_id) Hp Hc Hrev) as (w & ->).
    destruct (calculate_revenue_returns db
                (RevenueQueryParams.mk start_date (last_day_of_month start_date)
                   product_id category_id) Hp Hc Hrev) as (m & ->).
    cbn [bind].
    destruct (toordinal start_date + 6 <=? MAXORDINAL); cbn [negb];
      [|right; reflexivity].
    destruct (Z.eqb_spec (month start_date) 12); [left; reflexivity|].
    destruct (Z.eqb_spec (year start_date) 9999); [left; reflexivity|].
    destruct Hor; contradiction.
Qed.

Lemma revenue_analysis_succeeds_iff_witness :
  valid_datetime (midnight 9999 6 1) = true
  /\ revenues_present june_sales
  /\ ~ (exists series,
          revenue_analysis (midnight 9999 6 1) (midnight 9999 6 10) None None
            june_sales = Ok series).
Proof.
  assert (Hc : id_fits None) by (intros n [=]).
  assert (Hrev : revenues_present june_sales)
    by (intros S [<- | [<- | []]]; discriminate).
  split; [reflexivity|]. split; [exact Hrev|].
  intros H.
  apply (proj1 (proj2 (revenue_analysis_succeeds_iff (midnight 9999 6 1)
                         (midnight 9999 6 10) None None june_sales eq_refl)
                  Hc Hc Hrev)) in H.
  destruct H as (_ & Hy). apply Hy. reflexivity.
Defined.
(** ** The inventory update *)

Lemma rejected_quantity_iff (q : body_value) :
  rejected_quantity q = false <-> positive_int q.
Proof.
  unfold positive_int. destruct q as [n|]; cbn.
  - rewrite Z.leb_gt. split.
    + intros H. exists n. split; [reflexivity|exact H].
    + intros (m & [= <-] & H). exact H.
  - split; [discriminate|]. intros (m & [=] & _).
Qed.

Lemma refresh_after_commit (row row' : Inventory.t) (db : list Inventory.t) :
  In row db -> Inventory.id row' = Inventory.id row ->
  refresh row' (commit row' db) = Ok row'.
Proof.
  intros Hin Hid. unfold refresh, commit.
  induction db as [|r db IH]; [contradiction|].
  cbn [map find].
  destruct (Z.eqb_spec (Inventory.id r) (Inventory.id row')) as [E|E].
  - rewrite Z.eqb_refl. reflexivity.
  - destruct (Z.eqb_spec (Inventory.id r) (Inventory.id row')); [contradiction|].
    apply IH. destruct Hin as [-> | Hin]; [|exact Hin].
    symmetry in Hid. contradiction.
Qed.

Lemma commit_rows (row' r : Inventory.t) (db : list Inventory.t) :
  In r (commit row' db) ->
  r = row' \/ (In r db /\ Inventory.id r <> Inventory.id row').
Proof.
  unfold commit. rewrite in_map_iff. intros (x & E & Hx).
  destruct (Z.eqb_spec (Inventory.id x) (Inventory.id row')).
  - left. symmetry. exact E.
  - right. subst r. split; assumption.
Qed.

Lemma update_inventory_ok (utcnow : datetime) (pid n : Z)
  (db : list Inventory.t) (row : Inventory.t) :
  0 < n -> in_int64 pid = true -> in_int64 n = true ->
  find (fun r => Inventory.product_id r =? pid) db = Some row ->
  update_inventory utcnow pid (BodyInt n) db
  = Ok (updated_row row n utcnow, commit (updated_row row n utcnow) db).
Proof.
  intros Hn Hpid Hfit Hf. unfold update_inventory.
  cbn [rejected_quantity int_of_body Inventory.stock_quantity].
  destruct (Z.leb_spec n 0); [lia|]. rewrite Hpid, Hfit, Hf. cbn [negb].
  fold (updated_row row n utcnow).
  rewrite (refresh_after_commit row) by
    (try reflexivity; apply (find_some _ _ Hf)).
  reflexivity.
Qed.

Lemma update_inventory_ok_inv (utcnow : datetime) (pid : Z) (q : body_value)
  (db : list Inventory.t) (row' : Inventory.t) (db' : list Inventory.t) :
  update_inventory utcnow pid q db = Ok (row', db') ->
  exists n row,
    q = BodyInt n /\ 0 < n /\ in_int64 pid = true /\ in_int64 n = true
    /\ find (fun r => Inventory.product_id r =? pid) db = Some row
    /\ row' = updated_row row n utcnow
    /\ db' = commit row' db.
Proof.
  intros Hres. unfold update_inventory in Hres.
  destruct (rejected_quantity q) eqn:E; [discriminate|].
  apply rejected_quantity_iff in E. destruct E as (n & -> & Hn).
  destruct (in_int64 pid) eqn:Hpid; cbn [negb] in Hres; [|discriminate].
  destruct (find (fun r => Inventory.product_id r =? pid) db) as [row|] eqn:Hf;
    [|discriminate].
  cbn [int_of_body Inventory.stock_quantity] in Hres.
  destruct (in_int64 n) eqn:Hfit; cbn [negb] in Hres; [|discriminate].
  fold (updated_row row n utcnow) in Hres.
  rewrite (refresh_after_commit row) in Hres by
    (try reflexivity; apply (find_some _ _ Hf)).
  injection Hres as <- <-.
  exists n, row. repeat split; assumption.
Qed.

(** C8, as amended. The inventory update answers 400 for every
    [stock_quantity] that is not a positive integer. For a positive one it
    raises [OverflowError] when the product id does not fit the store's
    integers, and answers 404 when it fits and no row has the product id. For
    a first row [row] with the product id and a positive [n], it raises
    [OverflowError] and writes nothing when [n] does not fit the store's
    integers; otherwise it commits and returns that row with
    [stock_quantity] set to [n] and [last_updated] set to the reading of the
    clock, and every other row of the table is kept. A quantity written by
    the operation is positive, so a table of positive quantities stays
    one. *)
Theorem update_inventory_contract (utcnow : datetime) (product_id : Z)
  (stock_quantity : body_value) (db : list Inventory.t) :
  let first_row := find (fun r => Inventory.product_id r =? product_id) db in
  (~ positive_int stock_quantity ->
   update_inventory utcnow product_id stock_quantity db
   = Err (HTTPException 400 "stock_quantity should be a positive integer"))
  /\ (positive_int stock_quantity -> in_int64 product_id = false ->
      update_inventory utcnow product_id stock_quantity db = Err OverflowError)
  /\ (positive_int stock_quantity -> in_int64 product_id = true ->
      first_row = None ->
      update_inventory utcnow product_id stock_quantity db
      = Err (HTTPException 404 "Inventory not found"))
  /\ (forall n row,
        stock_quantity = BodyInt n -> 0 < n -> in_int64 product_id = true ->
        first_row = Some row ->
        (in_int64 n = false ->
         update_inventory utcnow product_id stock_quantity db
         = Err OverflowError)
        /\ (in_int64 n = true ->
            let row' := updated_row row n utcnow in
            update_inventory utcnow product_id stock_quantity db
            = Ok (row', commit row' db)
            /\ Inventory.product_id row' = product_id
            /\ Inventory.stock_quantity row' = n
            /\ Inventory.last_updated row' = utcnow
            /\ In row' (commit row' db)
            /\ (forall r, In r (commit row' db) ->
                  r = row' \/ (In r db /\ Inventory.id r <> Inventory.id row))))
  /\ (forall row' db',
        update_inventory utcnow product_id stock_quantity db = Ok (row', db') ->
        0 < Inventory.stock_quantity row'
        /\ (Forall (fun r => 0 < Inventory.stock_quantity r) db ->
            Forall (fun r => 0 < Inventory.stock_quantity r) db')).
Proof.
  cbv zeta.
  split; [|split; [|split; [|split]]].
  - intros Hneg. unfold update_inventory.
    destruct (rejected_quantity stock_quantity) eqn:E; [reflexivity|].
    apply rejected_quantity_iff in E. contradiction.
  - intros Hpos Hpid. unfold update_inventory.
    apply rejected_quantity_iff in Hpos. rewrite Hpos, Hpid. reflexivity.
  - intros Hpos Hpid Hnone. unfold update_inventory.
    apply rejected_quantity_iff in Hpos. rewrite Hpos, Hpid, Hnone. reflexivity.
  - intros n row Hq Hn Hpid Hf.
    destruct (find_some _ _ Hf) as (Hin & Hp).
    split.
    + intros Hfit. subst stock_quantity. unfold update_inventory.
      cbn [rejected_quantity int_of_body Inventory.stock_quantity].
      destruct (Z.leb_spec n 0); [lia|]. rewrite Hpid, Hf, Hfit. reflexivity.
    + intros Hfit. subst stock_quantity.
      split; [apply update_inventory_ok; assumption|].
      split; [apply Z.eqb_eq; exact Hp|].
      split; [reflexivity|]. split; [reflexivity|].
      split.
      * unfold commit. apply in_map_iff. exists row. split; [|exact Hin].
        cbn. rewrite Z.eqb_refl. reflexivity.
      * intros r Hr. apply commit_rows in Hr. exact Hr.
  - intros row' db' Hres.
    destruct (update_inventory_ok_inv _ _ _ _ _ _ Hres)
      as (n & row & -> & Hn & _ & _ & Hf & -> & ->).
    split; [exact Hn|].
    intros Hall. apply Forall_forall. intros r Hr.
    destruct (commit_rows _ _ _ Hr) as [-> | (Hin & _)]; [exact Hn|].
    rewrite Forall_forall in Hall. apply Hall. exact Hin.
Qed.

Lemma update_inventory_contract_witness :
  find (fun r => Inventory.product_id r =? 7) stock
  = Some (Inventory.mk 1 7 10 (midnight 2024 1 1) 1)
  /\ update_inventory (midnight 2024 3 1) 7 (BodyInt 3) stock
     = Ok (Inventory.mk 1 7 3 (midnight 2024 3 1) 1,
           [ Inventory.mk 1 7 3 (midnight 2024 3 1) 1;
             Inventory.mk 2 8 4 (midnight 2024 2 1) 1 ])
  /\ update_inventory (midnight 2024 3 1) 7 (BodyInt 0) stock
     = Err (HTTPException 400 "stock_quantity should be a positive integer")
  /\ update_inventory (midnight 2024 3 1) 9 (BodyInt 3) stock
     = Err (HTTPException 404 "Inventory not found").
Proof.
  pose proof (update_inventory_contract (midnight 2024 3 1) 7 (BodyInt 3) stock)
    as (_ & _ & _ & H3 & _).
  pose proof (update_inventory_contract (midnight 2024 3 1) 7 (BodyInt 0) stock)
    as (H1 & _).
  pose proof (update_inventory_contract (midnight 2024 3 1) 9 (BodyInt 3) stock)
    as (_ & _ & H2 & _).
  split; [reflexivity|]. split; [|split].
  - apply (proj2 (H3 3 (Inventory.mk 1 7 10 (midnight 2024 1 1) 1)
                    eq_refl eq_refl eq_refl eq_refl) eq_refl).
  - apply H1. intros (n & [= <-] & Hn). discriminate Hn.
  - apply H2; [|reflexivity|reflexivity]. exists 3. split; reflexivity.
Defined.

(** C8, as stated, fails. An update of a row whose [last_updated] is later
    than the reading of the clock moves [last_updated] back. A positive
    quantity that does not fit the store's integers is not written and the
    request ends in [OverflowError]; so does a request for a product id that
    does not fit, for which no row exists. *)
Lemma update_inventory_counterexample :
  update_inventory (midnight 2023 1 1) 7 (BodyInt 3) stock
  = Ok (Inventory.mk 1 7 3 (midnight 2023 1 1) 1,
        [ Inventory.mk 1 7 3 (midnight 2023 1 1) 1;
          Inventory.mk 2 8 4 (midnight 2024 2 1) 1 ])
  /\ find (fun r => Inventory.product_id r =? 7) stock
     = Some (Inventory.mk 1 7 10 (midnight 2024 1 1) 1)
  /\ datetime_leb (midnight 2024 1 1) (midnight 2023 1 1) = false
  /\ update_inventory (midnight 2024 3 1) 7 (BodyInt 9223372036854775808) stock
     = Err OverflowError
  /\ find (fun r => Inventory.product_id r =? 9223372036854775808) stock = None
  /\ update_inventory (midnight 2024 3 1) 9223372036854775808 (BodyInt 3) stock
     = Err OverflowError.
Proof. repeat split. Qed.

(** ** Inventory: reading after an update *)

Lemma find_product_after_commit (pid : Z) (row row' : Inventory.t)
  (db : list Inventory.t) :
  find (fun r => Inventory.product_id r =? pid) db = Some row ->
  Inventory.id row' = Inventory.id row ->
  Inventory.product_id row' = pid ->
  find (fun r => Inventory.product_id r =? pid) (commit row' db) = Some row'.
Proof.
  intros Hf Hid Hp. unfold commit.
  induction db as [|r db IH]; [discriminate|].
  cbn [find map] in *.
  destruct (Z.eqb_spec (Inventory.product_id r) pid) as [E|E].
  - injection Hf as ->. rewrite Hid, Z.eqb_refl, Hp, Z.eqb_refl. reflexivity.
  - destruct (Inventory.id r =? Inventory.id row').
    + rewrite Hp, Z.eqb_refl. reflexivity.
    + destruct (Z.eqb_spec (Inventory.product_id r) pid); [contradiction|].
      apply IH. exact Hf.
Qed.

Lemma unique_keys_inj {A : Type} (key : A -> Z) (db : list A) (x y : A) :
  unique_keys key db -> In x db -> In y db -> key x = key y -> x = y.
Proof.
  unfold unique_keys. induction db as [|r db IH]; [contradiction|].
  cbn [map]. intros Hu Hx Hy E. inversion Hu as [|? ? Hn Hu']; subst.
  destruct Hx as [-> | Hx], Hy as [-> | Hy].
  - reflexivity.
  - exfalso. apply Hn. rewrite E. apply in_map. exact Hy.
  - exfalso. apply Hn. rewrite <- E. apply in_map. exact Hx.
  - apply IH; assumption.
Qed.

Lemma find_other_product_after_commit (pid' : Z) (row' : Inventory.t)
  (db : list Inventory.t) :
  Inventory.product_id row' <> pid' ->
  (forall r, In r db -> Inventory.id r = Inventory.id row' ->
             Inventory.product_id r <> pid') ->
  find (fun r => Inventory.product_id r =? pid') (commit row' db)
  = find (fun r => Inventory.product_id r =? pid') db.
Proof.
  intros Hp Hall. unfold commit.
  induction db as [|r db IH]; [reflexivity|].
  cbn [find map].
  destruct (Z.eqb_spec (Inventory.id r) (Inventory.id row')) as [E|E].
  - pose proof (Hall r (or_introl eq_refl) E) as Hr.
    destruct (Z.eqb_spec (Inventory.product_id row') pid'); [contradiction|].
    destruct (Z.eqb_spec (Inventory.product_id r) pid'); [contradiction|].
    apply IH. intros r' Hr'. apply Hall. right. exact Hr'.
  - destruct (Inventory.product_id r =? pid'); [reflexivity|].
    apply IH. intros r' Hr'. apply Hall. right. exact Hr'.
Qed.

(** X7. After a successful inventory update for a product, reading the
    inventory of that product returns the updated row; when the primary keys
    of the table are pairwise distinct, reading the inventory of any other
    product returns what it returned before. *)
Theorem update_then_get_inventory (utcnow : datetime) (product_id : Z)
  (stock_quantity : body_value) (db : list Inventory.t)
  (updated : Inventory.t) (db' : list Inventory.t) :
  update_inventory utcnow product_id stock_quantity db = Ok (updated, db') ->
  get_inventory_by_product_id product_id db' = Ok updated
  /\ (unique_keys Inventory.id db ->
      forall other, other <> product_id ->
        get_inventory_by_product_id other db'
        = get_inventory_by_product_id other db).
Proof.
  intros Hres.
  destruct (update_inventory_ok_inv _ _ _ _ _ _ Hres)
    as (n & row & -> & Hn & Hpfit & Hnfit & Hf & -> & ->).
  destruct (find_some _ _ Hf) as (Hin & Hpid). apply Z.eqb_eq in Hpid.
  unfold get_inventory_by_product_id, first_by. split.
  - rewrite (find_product_after_commit product_id row); [reflexivity|exact Hf|..];
      [reflexivity|exact Hpid].
  - intros Hu other Hother.
    rewrite find_other_product_after_commit; [reflexivity| |].
    + cbn. congruence.
    + intros r Hr E. cbn in E.
      rewrite (unique_keys_inj Inventory.id db r row Hu Hr Hin E). congruence.
Qed.

Lemma update_then_get_inventory_witness :
  update_inventory (midnight 2024 3 1) 7 (BodyInt 3) stock
  = Ok (Inventory.mk 1 7 3 (midnight 2024 3 1) 1,
        [ Inventory.mk 1 7 3 (midnight 2024 3 1) 1;
          Inventory.mk 2 8 4 (midnight 2024 2 1) 1 ])
  /\ get_inventory_by_product_id 7
       [ Inventory.mk 1 7 3 (midnight 2024 3 1) 1;
         Inventory.mk 2 8 4 (midnight 2024 2 1) 1 ]
     = Ok (Inventory.mk 1 7 3 (midnight 2024 3 1) 1).
Proof.
  split; [reflexivity|].
  apply (update_then_get_inventory (midnight 2024 3 1) 7 (BodyInt 3) stock).
  reflexivity.
Defined.

Lemma commit_commit (a b : Inventory.t) (db : list Inventory.t) :
  Inventory.id a = Inventory.id b ->
  commit b (commit a db) = commit b db.
Proof.
  intros E. unfold commit. rewrite map_map. apply map_ext. intros r.
  destruct (Z.eqb_spec (Inventory.id r) (Inventory.id a)) as [Ea|Ea].
  - rewrite E, Z.eqb_refl.
    destruct (Z.eqb_spec (Inventory.id r) (Inventory.id b)); [reflexivity|].
    congruence.
  - reflexivity.
Qed.

(** X8. The last update wins: after a successful update for a product, a
    second update for the same product has the outcome it would have had on
    the table before the first one, so its row and table do not depend on
    the quantity or the time of the first update. *)
Theorem update_inventory_last_write_wins (t1 t2 : datetime) (product_id : Z)
  (q1 q2 : body_value) (db : list Inventory.t)
  (updated : Inventory.t) (db1 : list Inventory.t) :
  update_inventory t1 product_id q1 db = Ok (updated, db1) ->
  update_inventory t2 product_id q2 db1 = update_inventory t2 product_id q2 db.
Proof.
  intros Hres.
  destruct (update_inventory_ok_inv _ _ _ _ _ _ Hres)
    as (n & row & -> & Hn & Hpfit & Hnfit & Hf & -> & ->).
  destruct (find_some _ _ Hf) as (Hin & Hpid). apply Z.eqb_eq in Hpid.
  pose proof (find_product_after_commit product_id row (updated_row row n t1)
                db Hf eq_refl Hpid) as Hf1.
  destruct q2 as [n2|]; [|reflexivity].
  destruct (Z.leb_spec n2 0) as [L|L].
  - unfold update_inventory. cbn [rejected_quantity].
    destruct (Z.leb_spec n2 0); [reflexivity|lia].
  - destruct (in_int64 n2) eqn:Hfit2.
    + rewrite (update_inventory_ok t2 product_id n2 db row L Hpfit Hfit2 Hf).
      rewrite (update_inventory_ok t2 product_id n2 _ (updated_row row n t1)
                 L Hpfit Hfit2 Hf1).
      unfold updated_row at 1 3. cbn [Inventory.id Inventory.product_id
                                       Inventory.category_id].
      fold (updated_row row n2 t2).
      rewrite commit_commit by reflexivity. reflexivity.
    + unfold update_inventory.
      cbn [rejected_quantity int_of_body Inventory.stock_quantity].
      destruct (Z.leb_spec n2 0); [lia|].
      rewrite Hpfit, Hf, Hf1, Hfit2. reflexivity.
Qed.

Lemma update_inventory_last_write_wins_witness :
  update_inventory (midnight 2024 3 1) 7 (BodyInt 3) stock
  = Ok (Inventory.mk 1 7 3 (midnight 2024 3 1) 1,
        [ Inventory.mk 1 7 3 (midnight 2024 3 1) 1;
          Inventory.mk 2 8 4 (midnight 2024 2 1) 1 ])
  /\ update_inventory (midnight 2024 4 1) 7 (BodyInt 9)
       [ Inventory.mk 1 7 3 (midnight 2024 3 1) 1;
         Inventory.mk 2 8 4 (midnight 2024 2 1) 1 ]
     = update_inventory (midnight 2024 4 1) 7 (BodyInt 9) stock.
Proof.
  split; [reflexivity|].
  apply (update_inventory_last_write_wins (midnight 2024 3 1) (midnight 2024 4 1)
           7 (BodyInt 3) (BodyInt 9) stock
           (Inventory.mk 1 7 3 (midnight 2024 3 1) 1)).
  reflexivity.
Defined.

(** X9. A successful inventory update neither adds nor removes a row and
    changes no primary key: the list of all inventory items keeps its length
    and its keys, so keys that were pairwise distinct stay so. *)
Theorem update_inventory_keeps_keys (utcnow : datetime) (product_id : Z)
  (stock_quantity : body_value) (db : list Inventory.t)
  (updated : Inventory.t) (db' : list Inventory.t) :
  update_inventory utcnow product_id stock_quantity db = Ok (updated, db') ->
  map Inventory.id (get_all_inventory_items db')
  = map Inventory.id (get_all_inventory_items db)
  /\ List.length (get_all_inventory_items db')
     = List.length (get_all_inventory_items db)
  /\ (unique_keys Inventory.id db -> unique_keys Inventory.id db').
Proof.
  unfold get_all_inventory_items.
  intros Hres.
  destruct (update_inventory_ok_inv _ _ _ _ _ _ Hres)
    as (n & row & -> & Hn & Hpfit & Hnfit & Hf & -> & ->).
  assert (E : map Inventory.id (commit (updated_row row n utcnow) db)
              = map Inventory.id db).
  { unfold commit. rewrite map_map. apply map_ext. intros r.
    destruct (Z.eqb_spec (Inventory.id r) (Inventory.id (updated_row row n utcnow)));
      [symmetry; assumption|reflexivity]. }
  split; [exact E|]. split.
  - unfold commit. apply length_map.
  - unfold unique_keys. rewrite E. exact (fun H => H).
Qed.

Lemma update_inventory_keeps_keys_witness :
  update_inventory (midnight 2024 3 1) 8 (BodyInt 1) stock
  = Ok (Inventory.mk 2 8 1 (midnight 2024 3 1) 1,
        [ Inventory.mk 1 7 10 (midnight 2024 1 1) 1;
          Inventory.mk 2 8 1 (midnight 2024 3 1) 1 ])
  /\ map Inventory.id
       [ Inventory.mk 1 7 10 (midnight 2024 1 1) 1;
         Inventory.mk 2 8 1 (midnight 2024 3 1) 1 ]
     = map Inventory.id stock.
Proof.
  split; [reflexivity|].
  apply (update_inventory_keeps_keys (midnight 2024 3 1) 8 (BodyInt 1) stock
           (Inventory.mk 2 8 1 (midnight 2024 3 1) 1)).
  reflexivity.
Defined.


(** ** An inverted range *)

Lemma filter_all_false {A : Type} (f : A -> bool) (l : list A) :
  (forall x, f x = false) -> filter f l = [].
Proof.
  intros H. induction l as [|a l IH]; cbn; [reflexivity|].
  rewrite H. exact IH.
Qed.

(** X3. When the end date is before the start date, both are supplied and
    the identifiers supplied fit the store's integers, no sale can satisfy
    both bounds: the sales listing is empty and the revenue of the window is
    0.0, whatever the table and the other filters. *)
Theorem inverted_range_is_empty (start_date end_date : datetime)
  (product_id category_id : option Z) (db : list Sale.t) :
  datetime_leb start_date end_date = false ->
  id_fits product_id -> id_fits category_id ->
  get_sales (Some start_date) (Some end_date) product_id category_id db = Ok []
  /\ calculate_revenue_for_period db
       (RevenueQueryParams.mk start_date end_date product_id category_id)
     = Ok 0%float.
Proof.
  intros Hinv Hp Hc.
  assert (E : all (revenue_query
                     (RevenueQueryParams.mk start_date end_date product_id
                        category_id)) db = Ok []).
  { rewrite all_revenue_query_fits by assumption. f_equal.
    apply filter_all_false. intros S.
    destruct (matches _ S) eqn:M; [|reflexivity].
    apply revenue_predicate_iff in M. destruct M as (H1 & H2 & _).
    cbn [RevenueQueryParams.start_date RevenueQueryParams.end_date] in H1, H2.
    pose proof (text_leb_trans _ _ _ H1 H2) as H.
    rewrite bound_le_bound, Hinv in H. discriminate H. }
  unfold get_sales, calculate_revenue_for_period.
  rewrite listing_query_with_bounds, E. split; reflexivity.
Qed.

Lemma inverted_range_is_empty_witness :
  datetime_leb (midnight 2024 6 10) (midnight 2024 6 1) = false
  /\ get_sales (Some (midnight 2024 6 10)) (Some (midnight 2024 6 1)) (Some 1)
       None june_sales = Ok [].
Proof.
  split; [reflexivity|].
  apply (inverted_range_is_empty (midnight 2024 6 10) (midnight 2024 6 1)
           (Some 1) None june_sales).
  - reflexivity.
  - intros n [= <-]. reflexivity.
  - intros n [=].
Defined.

(** ** The derived windows *)

(** A later ordinal is a later date in the order of the fields. *)
Lemma ymd2ord_lt_fields (y m d y' m' d' : Z) :
  1 <= m <= 12 -> 1 <= d <= days_in_month y m ->
  1 <= m' <= 12 -> 1 <= d' <= days_in_month y' m' ->
  ymd2ord y m d < ymd2ord y' m' d' ->
  lex_list [y; m; d] [y'; m'; d'] = Lt.
Proof.
  intros Hm Hd Hm' Hd' L. cbn [lex_list].
  pose proof (ymd2ord_bounds y m d Hm Hd) as B.
  pose proof (ymd2ord_bounds y' m' d' Hm' Hd') as B'.
  destruct (Z.compare_spec y y') as [E | Ly | Ly]; cbn [lex].
  - subst y'. clear B B'.
    destruct (Z.compare_spec m m') as [Em | Lm | Lm]; cbn [lex].
    + subst m'. unfold ymd2ord in L.
      destruct (Z.compare_spec d d'); cbn [lex]; [lia|reflexivity|lia].
    + reflexivity.
    + exfalso. unfold ymd2ord, days_before_month, days_in_month in *.
      split_month Hm; split_month Hm'; try (clear - Lm; lia);
        destruct (is_leap y); revert Hd Hd' L; eval_closed; lia.
  - reflexivity.
  - exfalso. pose proof (days_before_year_mono (y' + 1) y ltac:(lia)). lia.
Qed.

Lemma lex_list_date_lt (a b : datetime) :
  lex_list [year a; month a; day a] [year b; month b; day b] = Lt ->
  datetime_leb a b = true.
Proof.
  intros H. apply datetime_leb_iff. unfold fields. cbn [lex_list] in *.
  destruct (year a ?= year b), (month a ?= month b), (day a ?= day b);
    cbn [lex] in *; congruence.
Qed.

Lemma lex_list_same_time (a b : datetime) :
  year a = year b -> month a = month b -> day a <= day b -> same_time a b ->
  datetime_leb a b = true.
Proof.
  intros Hy Hm Hd (Hh & Hmi & Hs & Hus).
  apply datetime_leb_iff. unfold fields. cbn [lex_list].
  rewrite Hy, Hm, Hh, Hmi, Hs, Hus, !Z.compare_refl. cbn [lex].
  destruct (Z.compare_spec (day a) (day b)); cbn [lex]; [discriminate..|lia].
Qed.

Lemma toordinal_in_range (s : datetime) :
  valid_datetime s = true -> 1 <= toordinal s <= MAXORDINAL.
Proof.
  intros Hv. apply valid_datetime_iff in Hv. destruct Hv as (Hd & _).
  unfold toordinal. apply ymd2ord_in_range. exact Hd.
Qed.

Lemma later_ordinal_later_datetime (a b : datetime) :
  valid_datetime a = true -> valid_datetime b = true ->
  toordinal a < toordinal b ->
  datetime_leb a b = true.
Proof.
  intros Ha Hb L.
  apply valid_datetime_iff in Ha. destruct Ha as ((_ & Hm & Hd) & _).
  apply valid_datetime_iff in Hb. destruct Hb as ((_ & Hm' & Hd') & _).
  apply lex_list_date_lt.
  exact (ymd2ord_lt_fields _ _ _ _ _ _ Hm Hd Hm' Hd' L).
Qed.

Lemma plus_days_in_range (s : datetime) (k : Z) :
  valid_datetime s = true -> 0 < k -> toordinal s + k <= MAXORDINAL ->
  1 <= toordinal s + k <= MAXORDINAL.
Proof.
  intros Hv Hk Hmax. pose proof (toordinal_in_range s Hv) as O.
  generalize dependent (toordinal s). intros t. lia.
Qed.

Lemma start_before_plus_days (s : datetime) (k : Z) :
  valid_datetime s = true -> 0 < k -> toordinal s + k <= MAXORDINAL ->
  datetime_leb s (plus_days s k) = true.
Proof.
  intros Hv Hk Hmax.
  destruct (plus_days_spec s k Hv (plus_days_in_range s k Hv Hk Hmax))
    as (V & E & _).
  apply later_ordinal_later_datetime; [exact Hv|exact V|].
  rewrite E. clear - Hk. generalize (toordinal s). intros t. lia.
Qed.

Lemma start_before_last_day_of_month (s : datetime) :
  valid_datetime s = true -> datetime_leb s (last_day_of_month s) = true.
Proof.
  intros Hv. apply valid_datetime_iff in Hv. destruct Hv as ((Hy & Hm & Hd) & _).
  apply lex_list_same_time; cbn; try reflexivity; try lia.
  repeat split.
Qed.

Lemma last_day_of_month_before_december_31 (s : datetime) :
  valid_datetime s = true ->
  datetime_leb (last_day_of_month s) (december_31 s) = true.
Proof.
  intros Hv. apply valid_datetime_iff in Hv. destruct Hv as ((Hy & Hm & Hd) & _).
  destruct (Z.eq_dec (month s) 12) as [E | E].
  - apply lex_list_same_time; cbn; try reflexivity; try lia.
    + rewrite E. unfold days_in_month. eval_closed. lia.
    + repeat split.
  - apply datetime_leb_iff. unfold fields. cbn.
    rewrite Z.compare_refl. cbn [lex].
    destruct (Z.compare_spec (month s) 12); cbn [lex]; [lia|discriminate|lia].
Qed.

Lemma start_before_december_31 (s : datetime) :
  valid_datetime s = true -> datetime_leb s (december_31 s) = true.
Proof.
  intros Hv.
  apply (datetime_leb_trans _ (last_day_of_month s)).
  - apply start_before_last_day_of_month, Hv.
  - apply last_day_of_month_before_december_31, Hv.
Qed.

Lemma valid_last_day_of_month (s : datetime) :
  valid_datetime s = true -> valid_datetime (last_day_of_month s) = true.
Proof.
  intros Hv. apply valid_datetime_iff in Hv. destruct Hv as ((Hy & Hm & Hd) & Ht).
  apply valid_datetime_iff. cbn. split; [|exact Ht].
  pose proof (days_in_month_bounds (year s) (month s) Hm).
  unfold date_in_range. lia.
Qed.

Lemma valid_december_31 (s : datetime) :
  valid_datetime s = true -> valid_datetime (december_31 s) = true.
Proof.
  intros Hv. apply valid_datetime_iff in Hv. destruct Hv as ((Hy & Hm & Hd) & Ht).
  apply valid_datetime_iff. cbn. split; [|exact Ht].
  unfold date_in_range, days_in_month. eval_closed. lia.
Qed.

(** X4. Whenever the weekly, monthly or annual branch derives a window end,
    that end is a well-formed [datetime] not before the start date: a derived
    window is never inverted and always contains its own start. *)
Theorem derived_window_contains_start (p : period)
  (start_date end_date window_end : datetime) :
  valid_datetime start_date = true ->
  p <> Daily ->
  period_end p start_date end_date = Ok window_end ->
  valid_datetime window_end = true
  /\ datetime_leb start_date window_end = true.
Proof.
  intros Hv Hp. rewrite (period_end_cases _ _ _ Hv).
  destruct p; [contradiction| | |].
  - destruct (Z.leb_spec (toordinal start_date + 6) MAXORDINAL) as [L|L];
      [|discriminate].
    intros [= <-].
    split.
    + apply (plus_days_spec start_date 6 Hv).
      apply plus_days_in_range; [exact Hv|reflexivity|exact L].
    + apply start_before_plus_days; [exact Hv|reflexivity|exact L].
  - destruct (month start_date =? 12); [discriminate|]. intros [= <-].
    split; [apply valid_last_day_of_month|apply start_before_last_day_of_month];
      exact Hv.
  - destruct (year start_date =? 9999); [discriminate|]. intros [= <-].
    split; [apply valid_december_31|apply start_before_december_31]; exact Hv.
Qed.

Lemma derived_window_contains_start_witness :
  valid_datetime (midnight 2024 2 27) = true
  /\ Weekly <> Daily
  /\ period_end Weekly (midnight 2024 2 27) (midnight 2024 2 28)
     = Ok (midnight 2024 3 4)
  /\ datetime_leb (midnight 2024 2 27) (midnight 2024 3 4) = true.
Proof.
  split; [reflexivity|]. split; [discriminate|]. split; [reflexivity|].
  apply (derived_window_contains_start Weekly (midnight 2024 2 27)
           (midnight 2024 2 28) (midnight 2024 3 4));
    [reflexivity|discriminate|reflexivity].
Defined.

(** X5. Every sale counted in the monthly figure is counted in the annual
    figure of the same request: the monthly window ends no later than the
    annual one, and both apply the same start date and filters. *)
Theorem monthly_sales_counted_in_annual (start_date end_date : datetime)
  (monthly_end annual_end : datetime) (product_id category_id : option Z)
  (db : list Sale.t) (S : Sale.t) (counted_monthly : list Sale.t) :
  valid_datetime start_date = true ->
  period_end Monthly start_date end_date = Ok monthly_end ->
  period_end Annual start_date end_date = Ok annual_end ->
  all (revenue_query
         (RevenueQueryParams.mk start_date monthly_end product_id category_id))
    db = Ok counted_monthly ->
  In S counted_monthly ->
  exists counted_annual,
    all (revenue_query
           (RevenueQueryParams.mk start_date annual_end product_id category_id))
      db = Ok counted_annual
    /\ In S counted_annual.
Proof.
  intros Hv. rewrite !(period_end_cases _ _ _ Hv).
  destruct (month start_date =? 12); [discriminate|]. intros [= <-].
  destruct (year start_date =? 9999); [discriminate|]. intros [= <-].
  unfold all. rewrite !revenue_query_bindable.
  cbn [RevenueQueryParams.product_id RevenueQueryParams.category_id].
  destruct (_ && _); [|discriminate]. intros [= <-] HS.
  eexists. split; [reflexivity|].
  unfold rows in *. rewrite filter_In in *.
  fold (revenue_predicate
          (RevenueQueryParams.mk start_date (last_day_of_month start_date)
             product_id category_id) S) in HS.
  fold (revenue_predicate
          (RevenueQueryParams.mk start_date (december_31 start_date)
             product_id category_id) S).
  rewrite revenue_predicate_iff in *.
  cbn [RevenueQueryParams.start_date RevenueQueryParams.end_date
       RevenueQueryParams.product_id RevenueQueryParams.category_id] in *.
  destruct HS as (Hin & H1 & H2 & H3).
  split; [exact Hin|]. split; [exact H1|]. split; [|exact H3].
  apply (text_leb_trans _ _ _ H2).
  rewrite bound_le_bound.
  apply last_day_of_month_before_december_31, Hv.
Qed.

Lemma monthly_sales_counted_in_annual_witness :
  valid_datetime (midnight 2024 6 1) = true
  /\ period_end Monthly (midnight 2024 6 1) (midnight 2024 6 10)
     = Ok (midnight 2024 6 30)
  /\ period_end Annual (midnight 2024 6 1) (midnight 2024 6 10)
     = Ok (midnight 2024 12 31)
  /\ all (revenue_query
            (RevenueQueryParams.mk (midnight 2024 6 1) (midnight 2024 6 30)
               None None)) june_sales
     = Ok [Sale.mk 2 1 3 (Some 30%float) (midnight 2024 6 10) 1]
  /\ exists counted_annual,
       all (revenue_query
              (RevenueQueryParams.mk (midnight 2024 6 1) (midnight 2024 12 31)
                 None None)) june_sales
       = Ok counted_annual
       /\ In (Sale.mk 2 1 3 (Some 30%float) (midnight 2024 6 10) 1)
            counted_annual.
Proof.
  split; [reflexivity|]. split; [reflexivity|]. split; [reflexivity|].
  split; [reflexivity|].
  apply (monthly_sales_counted_in_annual (midnight 2024 6 1) (midnight 2024 6 10)
           (midnight 2024 6 30) (midnight 2024 12 31) None None june_sales
           (Sale.mk 2 1 3 (Some 30%float) (midnight 2024 6 10) 1)
           [Sale.mk 2 1 3 (Some 30%float) (midnight 2024 6 10) 1]);
    [reflexivity|reflexivity|reflexivity|reflexivity|].
  left. reflexivity.
Defined.
(** ** Tables: lookups after an insert or a commit *)

Lemma find_app {A : Type} (f : A -> bool) (l1 l2 : list A) :
  find f (l1 ++ l2)
  = match find f l1 with
    | Some a => Some a
    | None => find f l2
    end.
Proof.
  induction l1 as [|a l1 IH]; cbn; [reflexivity|].
  destruct (f a); [reflexivity|exact IH].
Qed.

Lemma first_by_fresh {A : Type} (key : A -> Z) (k : Z) (db : list A) :
  fresh_key key k db <-> first_by key k db = None.
Proof.
  unfold fresh_key, first_by. split.
  - intros H. induction db as [|r db IH]; [reflexivity|].
    cbn. destruct (Z.eqb_spec (key r) k) as [E|E].
    + exfalso. apply (H r); [left; reflexivity|exact E].
    + apply IH. intros r' Hr'. apply H. right. exact Hr'.
  - intros H r Hr. apply Z.eqb_neq. exact (find_none _ _ H r Hr).
Qed.

Lemma first_by_inserted {A : Type} (key : A -> Z) (x : A) (db : list A) :
  fresh_key key (key x) db -> first_by key (key x) (db ++ [x]) = Some x.
Proof.
  intros H. apply first_by_fresh in H. unfold first_by in *.
  rewrite find_app, H. cbn. rewrite Z.eqb_refl. reflexivity.
Qed.

Lemma first_by_other {A : Type} (key : A -> Z) (k : Z) (x : A) (db : list A) :
  k <> key x -> first_by key k (db ++ [x]) = first_by key k db.
Proof.
  intros H. unfold first_by. rewrite find_app.
  destruct (find (fun r => key r =? k) db); [reflexivity|].
  cbn. destruct (Z.eqb_spec (key x) k); [congruence|reflexivity].
Qed.

Lemma first_by_some {A : Type} (key : A -> Z) (k : Z) (x : A) (db : list A) :
  first_by key k db = Some x -> In x db /\ key x = k.
Proof.
  unfold first_by. intros H. destruct (find_some _ _ H) as (Hin & E).
  split; [exact Hin|]. apply Z.eqb_eq. exact E.
Qed.

Lemma unique_keys_inserted {A : Type} (key : A -> Z) (x : A) (db : list A) :
  fresh_key key (key x) db -> unique_keys key db -> unique_keys key (db ++ [x]).
Proof.
  unfold unique_keys, fresh_key. intros Hf Hu.
  rewrite map_app. cbn [map].
  apply NoDup_app; [exact Hu|repeat constructor; intros []|].
  intros k Hk Hk'. destruct Hk' as [<- | []].
  apply in_map_iff in Hk. destruct Hk as (r & E & Hr).
  exact (Hf r Hr E).
Qed.


(** ** Products *)



(** ** Recording a sale *)




(** X14. A sale stamped in the very second of a start date is left out of
    the window the start date opens: the store compares the stamp, a text to
    the second, with the bound, a text to the microsecond, and the shorter
    text comes first. The sales listing and the revenue computation both
    leave the sale out. *)
Theorem start_second_is_excluded (S : Sale.t) (start_date : datetime)
  (end_date : option datetime) (window_end : datetime)
  (product_id category_id : option Z) :
  same_second start_date S ->
  listing_predicate
    (mk_config (Some start_date) end_date product_id category_id) S = false
  /\ revenue_predicate
       (RevenueQueryParams.mk start_date window_end product_id category_id) S
     = false.
Proof.
  intros Hsame. unfold same_second in Hsame.
  pose proof (bound_le_stamp_same_second start_date (Sale.sale_date S) Hsame)
    as Hlow.
  split.
  - destruct (listing_predicate _ S) eqn:E; [|reflexivity].
    apply listing_predicate_iff in E. destruct E as (E & _).
    cbn [cfg_start_date] in E. rewrite Hlow in E. discriminate E.
  - destruct (revenue_predicate _ S) eqn:E; [|reflexivity].
    apply revenue_predicate_iff in E. destruct E as (E & _).
    cbn [RevenueQueryParams.start_date] in E. rewrite Hlow in E.
    discriminate E.
Qed.

Lemma start_second_is_excluded_witness :
  same_second (midnight 2024 6 1)
    (Sale.mk 1 1 2 (Some 20%float) (midnight 2024 6 1) 1)
  /\ revenue_predicate
       (RevenueQueryParams.mk (midnight 2024 6 1) (midnight 2024 6 10) None None)
       (Sale.mk 1 1 2 (Some 20%float) (midnight 2024 6 1) 1)
     = false
  /\ calculate_revenue_for_period june_sales
       (RevenueQueryParams.mk (midnight 2024 6 1) (midnight 2024 6 10) None None)
     = Ok 30%float.
Proof.
  split; [reflexivity|]. split; [|reflexivity].
  apply (start_second_is_excluded
           (Sale.mk 1 1 2 (Some 20%float) (midnight 2024 6 1) 1)
           (midnight 2024 6 1) None (midnight 2024 6 10) None None).
  reflexivity.
Defined.

(** ** Categories *)

Lemma name_taken_iff (n : string) (db : list Category.t) :
  name_taken n db = true <-> In n (map Category.name db).
Proof.
  unfold name_taken. rewrite existsb_exists, in_map_iff.
  split; intros (r & H1 & H2).
  - exists r. split; [apply String.eqb_eq; exact H2|exact H1].
  - exists r. split; [exact H2|apply String.eqb_eq; exact H1].
Qed.

Lemma name_taken_elsewhere_iff (n : string) (k : Z) (db : list Category.t) :
  name_taken n (filter (fun r => negb (Category.id r =? k)) db) = true
  <-> exists r, In r db /\ Category.id r <> k /\ Category.name r = n.
Proof.
  rewrite name_taken_iff, in_map_iff. split.
  - intros (r & E & Hr). apply filter_In in Hr. destruct Hr as (Hr & Hk).
    exists r. split; [exact Hr|]. split; [|exact E].
    apply negb_true_iff, Z.eqb_neq in Hk. exact Hk.
  - intros (r & Hr & Hk & E). exists r. split; [exact E|].
    apply filter_In. split; [exact Hr|].
    apply negb_true_iff, Z.eqb_neq. exact Hk.
Qed.

Lemma first_by_commit_same {A : Type} (key : A -> Z) (obj row : A)
  (db : list A) :
  In row db -> key row = key obj ->
  first_by key (key obj) (commit_by key obj db) = Some obj.
Proof.
  intros Hin E. unfold first_by, commit_by.
  induction db as [|r db IH]; [contradiction|].
  cbn [map find].
  destruct (Z.eqb_spec (key r) (key obj)) as [Er|Er].
  - rewrite Z.eqb_refl. reflexivity.
  - destruct (Z.eqb_spec (key r) (key obj)); [contradiction|].
    apply IH. destruct Hin as [-> | Hin]; [contradiction|exact Hin].
Qed.

Lemma first_by_commit_other {A : Type} (key : A -> Z) (obj : A) (k : Z)
  (db : list A) :
  k <> key obj ->
  first_by key k (commit_by key obj db) = first_by key k db.
Proof.
  intros Hk. unfold first_by, commit_by.
  induction db as [|r db IH]; [reflexivity|].
  cbn [map find].
  destruct (Z.eqb_spec (key r) (key obj)) as [Er|Er].
  - destruct (Z.eqb_spec (key obj) k); [congruence|].
    destruct (Z.eqb_spec (key r) k); [congruence|]. exact IH.
  - destruct (key r =? k); [reflexivity|exact IH].
Qed.

Lemma map_key_commit_by {A : Type} (key : A -> Z) (obj : A) (db : list A) :
  map key (commit_by key obj db) = map key db.
Proof.
  unfold commit_by. rewrite map_map. apply map_ext. intros r.
  destruct (Z.eqb_spec (key r) (key obj)); [symmetry; assumption|reflexivity].
Qed.

Lemma commit_by_fresh {A : Type} (key : A -> Z) (obj : A) (db : list A) :
  fresh_key key (key obj) db -> commit_by key obj db = db.
Proof.
  unfold fresh_key, commit_by. intros H.
  induction db as [|r db IH]; [reflexivity|].
  cbn [map].
  destruct (Z.eqb_spec (key r) (key obj)) as [E|E].
  - exfalso. exact (H r (or_introl eq_refl) E).
  - f_equal. apply IH. intros r' Hr'. apply H. right. exact Hr'.
Qed.

Lemma commit_by_cons {A : Type} (key : A -> Z) (obj r : A) (db : list A) :
  commit_by key obj (r :: db)
  = (if key r =? key obj then obj else r) :: commit_by key obj db.
Proof. reflexivity. Qed.

Lemma commit_names_unique (k : Z) (n : string) (db : list Category.t) :
  unique_keys Category.id db -> unique_names db ->
  (forall r, In r db -> Category.id r <> k -> Category.name r <> n) ->
  unique_names (commit_by Category.id (Category.mk k n) db).
Proof.
  unfold unique_keys, unique_names.
  induction db as [|r db IH]; intros Hk Hn Hfree; [constructor|].
  cbn [map] in Hk, Hn.
  inversion Hk as [|? ? Hk1 Hk2]; subst.
  inversion Hn as [|? ? Hn1 Hn2]; subst.
  assert (Hfree' : forall r', In r' db -> Category.id r' <> k ->
                              Category.name r' <> n)
    by (intros r' Hr'; apply Hfree; right; exact Hr').
  rewrite commit_by_cons. cbn [Category.id].
  destruct (Z.eqb_spec (Category.id r) k) as [E|E]; cbn [map].
  - rewrite commit_by_fresh.
    + cbn [Category.name]. constructor; [|exact Hn2].
      intros Hin. apply in_map_iff in Hin. destruct Hin as (r' & E' & Hr').
      refine (Hfree' r' Hr' _ E'). intros Ek. apply Hk1.
      rewrite E, <- Ek. apply in_map. exact Hr'.
    + intros r' Hr' Ek. cbn in Ek. apply Hk1.
      rewrite E, <- Ek. apply in_map. exact Hr'.
  - constructor; [|apply IH; assumption].
    intros Hin. apply in_map_iff in Hin. destruct Hin as (x & Ex & Hx).
    unfold commit_by in Hx.
    apply in_map_iff in Hx. destruct Hx as (y & Ey & Hy).
    cbn [Category.id] in Ey.
    destruct (Category.id y =? k).
    + subst x. cbn in Ex.
      exact (Hfree r (or_introl eq_refl) E (eq_sym Ex)).
    + subst x. apply Hn1. rewrite <- Ex. apply in_map. exact Hy.
Qed.

(** What [update_category] does on a category it finds. *)
Lemma update_category_found (k : Z) (category : CategoryCreate.t)
  (db : list Category.t) (c : Category.t) :
  in_int64 k = true ->
  first_by Category.id k db = Some c ->
  let n := CategoryCreate.name category in
  update_category k category db
  = if String.eqb (Category.name c) n then Returns (c, db)
    else if name_taken n (filter (fun r => negb (Category.id r =? k)) db)
         then RaisesIntegrityError
         else Returns (Category.mk k n,
                       commit_by Category.id (Category.mk k n) db).
Proof.
  intros Hfit Hf n. destruct (first_by_some _ _ _ _ Hf) as (Hin & Hk).
  unfold update_category. rewrite Hfit, Hf. cbv zeta.
  cbn [negb Category.name Category.id].
  fold n. rewrite Hk.
  destruct (String.eqb_spec (Category.name c) n) as [E|E].
  - unfold refresh_by. cbn [Category.id]. rewrite Hf. cbn [bind returned].
    destruct c as [ci cn]. cbn in *. subst. reflexivity.
  - destruct (name_taken n _); [reflexivity|].
    unfold refresh_by.
    rewrite (first_by_commit_same Category.id (Category.mk k n) c db Hin Hk).
    reflexivity.
Qed.

(** X10. Creating a category under a primary key no category has: when the
    name is held by a category of the table, the commit breaks the unique
    constraint and the endpoint lets the [IntegrityError] through; otherwise
    the category is returned and from then on read by its key, reading by any
    other key is unchanged, and the list of all categories is the former list
    followed by the new one. *)
Theorem create_category_contract (new_id : Z) (category : CategoryCreate.t)
  (db : list Category.t) :
  fresh_key Category.id new_id db ->
  let created := Category.mk new_id (CategoryCreate.name category) in
  (In (CategoryCreate.name category) (map Category.name db) ->
   create_category new_id category db = RaisesIntegrityError)
  /\ (~ In (CategoryCreate.name category) (map Category.name db) ->
      create_category new_id category db = Returns (created, db ++ [created])
      /\ read_category new_id (db ++ [created]) = Ok created
      /\ (forall k, k <> new_id ->
            read_category k (db ++ [created]) = read_category k db)
      /\ get_all_categories (db ++ [created])
         = get_all_categories db ++ [created]).
Proof.
  intros Hf created.
  assert (Hf' : fresh_key Category.id (Category.id created) db) by exact Hf.
  pose proof (first_by_inserted Category.id created db Hf') as Hin.
  split.
  - intros Hn. apply name_taken_iff in Hn.
    unfold create_category. cbn [Category.name]. rewrite Hn. reflexivity.
  - intros Hn.
    assert (Hn' : name_taken (CategoryCreate.name category) db = false).
    { destruct (name_taken _ db) eqn:E; [|reflexivity].
      apply name_taken_iff in E. contradiction. }
    split; [|split; [|split]].
    + unfold create_category, refresh_by. cbn [Category.name].
      rewrite Hn'. fold created. rewrite Hin. reflexivity.
    + unfold read_category. change new_id with (Category.id created).
      rewrite Hin. reflexivity.
    + intros k Hk. unfold read_category.
      rewrite (first_by_other Category.id k created db Hk). reflexivity.
    + reflexivity.
Qed.

Lemma create_category_contract_witness :
  fresh_key Category.id 2 [Category.mk 1 "Books"]
  /\ create_category 2 (CategoryCreate.mk "Books") [Category.mk 1 "Books"]
     = RaisesIntegrityError
  /\ read_category 2 [Category.mk 1 "Books"; Category.mk 2 "Maps"]
     = Ok (Category.mk 2 "Maps").
Proof.
  assert (H : fresh_key Category.id 2 [Category.mk 1 "Books"]).
  { intros r [<- | []]. discriminate. }
  split; [exact H|]. split.
  - apply (create_category_contract 2 (CategoryCreate.mk "Books")
             [Category.mk 1 "Books"] H).
    left. reflexivity.
  - apply (create_category_contract 2 (CategoryCreate.mk "Maps")
             [Category.mk 1 "Books"] H).
    intros [E | []]. discriminate E.
Defined.

Lemma create_category_returns_inv (new_id : Z) (category : CategoryCreate.t)
  (db : list Category.t) (c : Category.t) (db' : list Category.t) :
  create_category new_id category db = Returns (c, db') ->
  ~ In (CategoryCreate.name category) (map Category.name db)
  /\ db' = db ++ [Category.mk new_id (CategoryCreate.name category)].
Proof.
  unfold create_category. cbn [Category.name].
  destruct (name_taken (CategoryCreate.name category) db) eqn:E; [discriminate|].
  unfold refresh_by.
  destruct (first_by _ _ _); cbn [bind returned]; [|discriminate].
  intros [= _ <-]. split; [|reflexivity].
  intros Hin. apply name_taken_iff in Hin. congruence.
Qed.

(** X11. The names of the categories stay pairwise distinct: in a table with
    distinct primary keys and distinct names, whatever [create_category] or
    [update_category] returns leaves a table with distinct names. *)
Theorem category_names_stay_unique (db : list Category.t) :
  unique_keys Category.id db ->
  unique_names db ->
  (forall new_id category c db',
      create_category new_id category db = Returns (c, db') -> unique_names db')
  /\ (forall k category c db',
        update_category k category db = Returns (c, db') -> unique_names db').
Proof.
  intros Hk Hn. split.
  - intros new_id category c db' H.
    destruct (create_category_returns_inv _ _ _ _ _ H) as (Hfree & ->).
    unfold unique_names in *. rewrite map_app. cbn [map Category.name].
    apply NoDup_app; [exact Hn|repeat constructor; intros []|].
    intros n Hin [<- | []]. exact (Hfree Hin).
  - intros k category c db' H.
    destruct (in_int64 k) eqn:Hfit;
      [|unfold update_category in H; rewrite Hfit in H; discriminate H].
    destruct (first_by Category.id k db) as [c0|] eqn:Hf.
    + rewrite (update_category_found k category db c0 Hfit Hf) in H.
      cbv zeta in H.
      destruct (String.eqb (Category.name c0) (CategoryCreate.name category)).
      * injection H as _ <-. exact Hn.
      * destruct (name_taken _ _) eqn:T; [discriminate|].
        injection H as _ <-.
        apply commit_names_unique; [exact Hk|exact Hn|].
        intros r Hr Hid E.
        assert (T' : name_taken (CategoryCreate.name category)
                       (filter (fun r => negb (Category.id r =? k)) db) = true).
        { apply name_taken_elsewhere_iff. exists r. repeat split; assumption. }
        congruence.
    + unfold update_category in H. rewrite Hfit, Hf in H. discriminate H.
Qed.

Lemma category_names_stay_unique_witness :
  unique_keys Category.id [Category.mk 1 "Books"; Category.mk 2 "Maps"]
  /\ unique_names [Category.mk 1 "Books"; Category.mk 2 "Maps"]
  /\ update_category 2 (CategoryCreate.mk "Atlases")
       [Category.mk 1 "Books"; Category.mk 2 "Maps"]
     = Returns (Category.mk 2 "Atlases",
                [Category.mk 1 "Books"; Category.mk 2 "Atlases"])
  /\ unique_names [Category.mk 1 "Books"; Category.mk 2 "Atlases"].
Proof.
  assert (K : unique_keys Category.id [Category.mk 1 "Books"; Category.mk 2 "Maps"]).
  { unfold unique_keys. cbn. repeat constructor.
    - intros [E | []]. discriminate E.
    - intros []. }
  assert (N : unique_names [Category.mk 1 "Books"; Category.mk 2 "Maps"]).
  { unfold unique_names. cbn. repeat constructor.
    - intros [E | []]. discriminate E.
    - intros []. }
  split; [exact K|]. split; [exact N|]. split; [reflexivity|].
  apply (proj2 (category_names_stay_unique _ K N) 2 (CategoryCreate.mk "Atlases")
           (Category.mk 2 "Atlases")).
  reflexivity.
Defined.

(** X12. Updating a category: a key that does not fit the store's integers
    makes the lookup raise [OverflowError], and a key that fits and that no
    category has answers 404. For a key a category has, a new name held by
    another category breaks the unique constraint and the [IntegrityError] is
    let through; otherwise the category with the new name is returned,
    reading by its key returns it, reading by any other key is unchanged and
    the table keeps its list of keys. *)
Theorem update_category_contract (k : Z) (category : CategoryCreate.t)
  (db : list Category.t) :
  let n := CategoryCreate.name category in
  (in_int64 k = false -> update_category k category db = Raises OverflowError)
  /\ (in_int64 k = true ->
      first_by Category.id k db = None ->
      update_category k category db
      = Raises (HTTPException 404 "Category not found"))
  /\ (forall c,
        in_int64 k = true ->
        first_by Category.id k db = Some c ->
        (Category.name c <> n ->
         (exists r, In r db /\ Category.id r <> k /\ Category.name r = n) ->
         update_category k category db = RaisesIntegrityError)
        /\ (Category.name c = n
            \/ (forall r, In r db -> Category.id r <> k -> Category.name r <> n) ->
            exists db',
              update_category k category db = Returns (Category.mk k n, db')
              /\ read_category k db' = Ok (Category.mk k n)
              /\ (forall k', k' <> k -> read_category k' db' = read_category k' db)
              /\ map Category.id db' = map Category.id db)).
Proof.
  intros n. split; [|split].
  - intros Hfit. unfold update_category. rewrite Hfit. reflexivity.
  - intros Hfit Hf. unfold update_category. rewrite Hfit, Hf. reflexivity.
  - intros c Hfit Hf. destruct (first_by_some _ _ _ _ Hf) as (Hin & Hk).
    rewrite (update_category_found k category db c Hfit Hf). cbv zeta. fold n.
    split.
    + intros Hne Hex.
      destruct (String.eqb_spec (Category.name c) n); [contradiction|].
      apply name_taken_elsewhere_iff in Hex. rewrite Hex. reflexivity.
    + intros Hfree.
      destruct (String.eqb_spec (Category.name c) n) as [E|E].
      * exists db. destruct c as [ci cn]. cbn in E, Hk. subst ci cn.
        split; [reflexivity|]. split; [|split; [reflexivity..]].
        unfold read_category. rewrite Hf. reflexivity.
      * destruct Hfree as [C | Hfree]; [contradiction|].
        assert (T : name_taken n (filter (fun r => negb (Category.id r =? k)) db)
                    = false).
        { destruct (name_taken n _) eqn:T; [|reflexivity].
          apply name_taken_elsewhere_iff in T.
          destruct T as (r & Hr & Hid & Er). exfalso.
          exact (Hfree r Hr Hid Er). }
        rewrite T. exists (commit_by Category.id (Category.mk k n) db).
        split; [reflexivity|]. split; [|split].
        -- unfold read_category.
           pose proof (first_by_commit_same Category.id (Category.mk k n) c db
                         Hin Hk) as R.
           cbn [Category.id] in R. rewrite R. reflexivity.
        -- intros k' Hk'. unfold read_category.
           rewrite (first_by_commit_other Category.id (Category.mk k n) k' db Hk').
           reflexivity.
        -- apply map_key_commit_by.
Qed.

Lemma update_category_contract_witness :
  first_by Category.id 2 [Category.mk 1 "Books"; Category.mk 2 "Maps"]
  = Some (Category.mk 2 "Maps")
  /\ first_by Category.id 3 [Category.mk 1 "Books"; Category.mk 2 "Maps"] = None
  /\ update_category 3 (CategoryCreate.mk "Atlases")
       [Category.mk 1 "Books"; Category.mk 2 "Maps"]
     = Raises (HTTPException 404 "Category not found")
  /\ update_category 2 (CategoryCreate.mk "Books")
       [Category.mk 1 "Books"; Category.mk 2 "Maps"]
     = RaisesIntegrityError
  /\ update_category 9223372036854775808 (CategoryCreate.mk "Atlases")
       [Category.mk 1 "Books"; Category.mk 2 "Maps"]
     = Raises OverflowError.
Proof.
  split; [reflexivity|]. split; [reflexivity|]. split; [|split].
  - apply (proj1 (proj2 (update_category_contract 3
                           (CategoryCreate.mk "Atlases")
                           [Category.mk 1 "Books"; Category.mk 2 "Maps"])));
      reflexivity.
  - apply (proj1 (proj2 (proj2 (update_category_contract 2
                                  (CategoryCreate.mk "Books")
                                  [Category.mk 1 "Books"; Category.mk 2 "Maps"]))
                    (Category.mk 2 "Maps") eq_refl eq_refl)).
    + discriminate.
    + exists (Category.mk 1 "Books"). split; [left; reflexivity|].
      split; [discriminate|reflexivity].
  - apply (proj1 (update_category_contract 9223372036854775808
                    (CategoryCreate.mk "Atlases")
                    [Category.mk 1 "Books"; Category.mk 2 "Maps"])).
    reflexivity.
Defined.
